(** * WindPlant: the configuration layer over the external wind engine

    A shallow embedding of [hopp/simulation/technologies/wind/wind_plant.py].
    The plant object is a record; its methods and property setters are
    computations in a state-and-exception monad over that record, so that a
    mutation made before a [raise] is still visible afterwards, as in Python.
    Floating-point numbers are read as exact rationals ([Q]). *)

From Stdlib Require Import QArith Qround Lqa.
From stdpp Require Import gmap strings list fin_maps pretty.

Open Scope Q_scope.
Open Scope string_scope.

(** ** Exceptions and the computation monad *)

Inductive exn_class :=
| ValueError
| RuntimeError
| NotImplementedError
| UnboundLocalError
| ZeroDivisionError
| TypeError
| KeyError
| AttributeError
| OtherError (name : string).

(** An exception has a class and a message.  One that is raised while
    another is being handled (inside an [except] block) carries that other
    as its context, as Python's [__context__] does; [Raise] is an exception
    raised outside any handler. *)
Inductive exn :=
| Raise (cls : exn_class) (msg : string)
| RaiseDuring (cls : exn_class) (msg : string) (context : exn).

Definition exn_cls (e : exn) : exn_class :=
  match e with Raise c _ | RaiseDuring c _ _ => c end.

Definition exn_msg (e : exn) : string :=
  match e with Raise _ m | RaiseDuring _ m _ => m end.

Definition exn_context (e : exn) : option exn :=
  match e with Raise _ _ => None | RaiseDuring _ _ c => Some c end.

(** What raising [e] gives while [caught] is being handled: a fresh
    exception takes [caught] as its context, one that already has a context
    keeps it. *)
Definition during (caught e : exn) : exn :=
  match e with
  | Raise c m => RaiseDuring c m caught
  | RaiseDuring _ _ _ => e
  end.

Inductive outcome (A : Type) :=
| Returns (a : A)
| Raises (e : exn).
Arguments Returns {A} a.
Arguments Raises {A} e.

Definition Py (S A : Type) : Type := S -> outcome A * S.

Definition ret {S A} (a : A) : Py S A := fun s => (Returns a, s).

Definition bind {S A B} (c : Py S A) (k : A -> Py S B) : Py S B :=
  fun s => match c s with
           | (Returns a, s') => k a s'
           | (Raises e, s') => (Raises e, s')
           end.

Definition raise {S A} (e : exn) : Py S A := fun s => (Raises e, s).

Definition get_state {S} : Py S S := fun s => (Returns s, s).

(** A pure computation that may raise. *)
Definition lift {S A} (o : outcome A) : Py S A := fun s => (o, s).

(** [try: body  except: handler] with a bare [except]: every exception of the
    body is caught and the state is kept.  The class and the message of the
    caught exception are not passed on; an exception that the handler raises
    has the caught one as its context. *)
Definition try_except {S A} (body : Py S A) (handler : Py S A) : Py S A :=
  fun s => match body s with
           | (Returns a, s') => (Returns a, s')
           | (Raises caught, s') =>
               match handler s' with
               | (Returns a, s'') => (Returns a, s'')
               | (Raises e, s'') => (Raises (during caught e), s'')
               end
           end.

Declare Scope py_scope.
Delimit Scope py_scope with py.
Notation "x <- c ;; k" := (bind c (fun x => k))
  (at level 100, c at next level, right associativity) : py_scope.
Notation "c ;; k" := (bind c (fun _ => k))
  (at level 100, right associativity) : py_scope.
Open Scope py_scope.

(** ** Values held by the engine *)

(** The resource-data dictionary of the site's wind resource, with its three
    entries: the measurement heights, the field codes and the time series. *)
Record ResourceData := {
  heights : list Q;
  fields : list Z;
  data_rows : list (list Q)
}.

Inductive value :=
| VNum (q : Q)
| VArr (l : list Q)
| VData (d : ResourceData).

(** The system model is reached through [value(name)] and
    [value(name, v)]: a store of named variables.  Reading a variable that
    was never assigned raises inside the engine; an assignment is kept as
    given and replaces what the variable held. *)
Abbreviation SystemModel := (gmap string value).

Definition engine_value_get (name : string) : Py SystemModel value :=
  fun m => match m !! name with
           | Some v => (Returns v, m)
           | None => (Raises (Raise (OtherError "Exception") name), m)
           end.

Definition engine_value_set (name : string) (v : value) : Py SystemModel unit :=
  fun m => (Returns tt, <[name := v]> m).

(** ** Python built-ins on numbers and sequences *)

Fixpoint py_max_from (m : Q) (l : list Q) : Q :=
  match l with
  | [] => m
  | x :: l' => py_max_from (if Qlt_le_dec m x then x else m) l'
  end.

Definition py_max (l : list Q) : outcome Q :=
  match l with
  | [] => Raises (Raise ValueError "max() arg is an empty sequence")
  | x :: l' => Returns (py_max_from x l')
  end.

Fixpoint py_min_from (m : Q) (l : list Q) : Q :=
  match l with
  | [] => m
  | x :: l' => py_min_from (if Qlt_le_dec x m then x else m) l'
  end.

Definition py_min (l : list Q) : outcome Q :=
  match l with
  | [] => Raises (Raise ValueError "min() arg is an empty sequence")
  | x :: l' => Returns (py_min_from x l')
  end.

Definition py_div (a b : Q) : outcome Q :=
  if Qeq_bool b 0 then Raises (Raise ZeroDivisionError "float division by zero")
  else Returns (a / b).

Definition as_sequence (v : value) : outcome (list Q) :=
  match v with
  | VArr l => Returns l
  | VNum _ => Raises (Raise TypeError "'float' object is not iterable")
  | VData _ => Raises (Raise TypeError "unsupported operand")
  end.

Definition as_number (v : value) : outcome Q :=
  match v with
  | VNum q => Returns q
  | _ => Raises (Raise TypeError "unsupported operand")
  end.

Definition py_len (v : value) : outcome nat :=
  match v with
  | VArr l => Returns (length l)
  | VNum _ => Raises (Raise TypeError "object of type 'float' has no len()")
  | VData _ => Returns 3%nat
  end.

Definition Q_of_nat (n : nat) : Q := inject_Z (Z.of_nat n).

(** [round(x, decimals=3)] of numpy: to the nearest multiple of 1/1000, a tie
    going to the even neighbour. *)
Definition round_half_even (q : Q) : Z :=
  let f := Qfloor q in
  match Qcompare (q - inject_Z f) (1 # 2) with
  | Lt => f
  | Gt => (f + 1)%Z
  | Eq => if Z.even f then f else (f + 1)%Z
  end.

Definition np_round3 (q : Q) : Q := inject_Z (round_half_even (q * 1000)) / 1000.

(** [int(x)]: truncation towards zero. *)
Definition py_int (q : Q) : Z := if Qlt_le_dec q 0 then Qceiling q else Qfloor q.

(** [x != y] on numbers. *)
Definition py_ne (a b : Q) : bool := negb (Qeq_bool a b).

(** Lookup in a dictionary given as its list of items. *)
Fixpoint dict_get (d : list (string * value)) (key : string) : outcome value :=
  match d with
  | [] => Raises (Raise KeyError key)
  | (k, v) :: d' => if String.eqb k key then Returns v else dict_get d' key
  end.

(** ** The plant and its collaborators *)

(** The fields of [WindConfig] that the plant's methods read. *)
Module WindConfig.
Record t := {
  num_turbines : Z;
  turbine_rating_kw : option Q;
  rotor_diameter : option Q;
  hub_height : option Q;
  turbine_name : option string;
  turbine_group : string;
  layout_mode : string;
  model_name : string;
  adjust_air_density_for_elevation : bool
}.
End WindConfig.

Module WindResource.
Record t := {
  hub_height_meters : Q;
  latitude : Q;
  longitude : Q;
  year : Z;
  data : ResourceData
}.
End WindResource.

Module SiteInfo.
Record t := {
  wind_resource : WindResource.t;
  hub_height : Q;
  elev : option Q
}.
End SiteInfo.

(** Layout parameters: [WindCustomParameters] carries the coordinate lists;
    the grid parameter classes have no [layout_x]. *)
Inductive LayoutParameters :=
| WindCustomParameters (layout_x layout_y : list Q)
| WindGridParameters.

Module WindLayout.
Record t := {
  layout_mode : string;
  parameters : LayoutParameters
}.
End WindLayout.

Record WindPlant := {
  site : SiteInfo.t;
  config : WindConfig.t;
  _system_model : SystemModel;
  _layout : WindLayout.t
}.

Definition with_system_model (m : SystemModel) (w : WindPlant) : WindPlant :=
  {| site := site w; config := config w; _system_model := m; _layout := _layout w |}.

Definition with_site (s : SiteInfo.t) (w : WindPlant) : WindPlant :=
  {| site := s; config := config w; _system_model := _system_model w; _layout := _layout w |}.

Definition with_layout (l : WindLayout.t) (w : WindPlant) : WindPlant :=
  {| site := site w; config := config w; _system_model := _system_model w; _layout := l |}.

(** Run an engine computation on the plant's system model. *)
Definition on_system_model {A} (c : Py SystemModel A) : Py WindPlant A :=
  fun w => match c (_system_model w) with
           | (o, m) => (o, with_system_model m w)
           end.

(** The layout object holds a reference to the same system model as the
    plant: its methods act on both. *)
Definition on_layout {A} (c : Py (WindLayout.t * SystemModel) A) : Py WindPlant A :=
  fun w => match c (_layout w, _system_model w) with
           | (o, (l, m)) => (o, with_layout l (with_system_model m w))
           end.

(** [self._system_model.value(name)] and [self._system_model.value(name, v)]. *)
Definition value_get (name : string) : Py WindPlant value :=
  on_system_model (engine_value_get name).

Definition value_set (name : string) (v : value) : Py WindPlant unit :=
  on_system_model (engine_value_set name v).

(** [group.assign(dict)]: every item of the dictionary is assigned. *)
Fixpoint assign (d : list (string * value)) : Py WindPlant unit :=
  match d with
  | [] => ret tt
  | (k, v) :: d' => value_set k v ;; assign d'
  end.

(** Code of the repository and of the engine that the plant calls and that
    is not part of this file: the turbine library, the layout object, the
    site's resource download, the engine's power-curve calculation and the
    Floris model's layout call, and Python's number formatting. *)
Class Collaborators := {
  check_turbine_library_for_turbine : string -> string -> bool;
  get_pysam_turbine_specs : string -> WindPlant -> outcome (list (string * value));
  set_num_turbines : Z -> Py (WindLayout.t * SystemModel) unit;
  initialize_wind_resource : SiteInfo.t -> Q -> Q -> Z -> outcome WindResource.t;
  calculate_air_density_losses : Q -> Q;
  calculate_powercurve : Q -> Z -> Z -> Q -> Z -> Z -> Z -> Z -> Z -> Py SystemModel unit;
  wind_farm_layout : list Q -> list Q -> Py SystemModel unit;
  format_number : Q -> string
}.

Definition k_powerout := "wind_turbine_powercurve_powerout".
Definition k_windspeeds := "wind_turbine_powercurve_windspeeds".
Definition k_capacity := "system_capacity".
Definition k_xcoords := "wind_farm_xCoordinates".
Definition k_ycoords := "wind_farm_yCoordinates".
Definition k_wake := "wind_farm_wake_model".
Definition k_rotor := "wind_turbine_rotor_diameter".
Definition k_hub := "wind_turbine_hub_ht".
Definition k_resource := "wind_resource_data".
Definition k_loss := "turb_specific_loss".


(** *** Messages *)

Definition msg_turbine_not_found (name : string) : string :=
  "Turbine name " ++ name ++ " was not found the turbine-models library. "
  ++ "Please try an available name.".

Definition msg_unbound_local (var : string) : string :=
  "cannot access local variable '" ++ var ++ "' where it is not associated with a value".

Definition msg_num_turbines (n_turbines : Z) (n_turbs_layout : nat) : string :=
  "Using custom wind farm layout and input number of turbines (" ++ pretty n_turbines ++ ") "
  ++ "does not equal length of layout (" ++ pretty n_turbs_layout ++ "). "
  ++ "Please either update num_turbines in the hopp config to " ++ pretty n_turbs_layout ++ " "
  ++ "Or change the layout to include " ++ pretty n_turbines ++ " unique turbine positions.".

Definition msg_coordinates : string :=
  "WindPlant turbine coordinate arrays must have same length".

Section Plant.
Context `{Collaborators}.

Definition msg_rotor_diameter (input turbine : Q) : string :=
  "Input rotor diameter (" ++ format_number input
  ++ ") does not match does not match rotor diameter "
  ++ "for turbine (" ++ format_number turbine ++ ")."
  ++ "Please correct the value for rotor_diameter in the hopp config input "
  ++ "to " ++ format_number turbine ++ ".".

Definition msg_hub_height (input turbine : Q) : string :=
  "Input hub-height (" ++ format_number input ++ ") does not match hub-height "
  ++ "for turbine (" ++ format_number turbine ++ "). "
  ++ "Please correct the value for hub_height in the hopp config input "
  ++ "to " ++ format_number turbine ++ ".".

Definition msg_powercurve (rotor_diam rating_kw : Q) : string :=
  "WindPlant.turb_rating could not calculate turbine powercurve with diameter="
  ++ format_number rotor_diam ++ ", rating=" ++ format_number rating_kw
  ++ ". Check diameter or turn off 'recalculate_powercurve'".

(** *** [wake_model] *)

Definition wake_model : Py WindPlant string :=
  try_except
    (v <- value_get k_wake ;;
     model_type <- lift (as_number v) ;;
     if Qeq_bool model_type 0 then ret "0 [Simple]"
     else if Qeq_bool model_type 1 then ret "1 [Park (WAsP)]"
     else if Qeq_bool model_type 2 then ret "2 [Eddy Viscosity]"
     else if Qeq_bool model_type 3 then ret "3 [Constant %]"
     else raise (Raise ValueError "wake model type unrecognized"))
    (raise (Raise NotImplementedError EmptyString)).

Definition wake_model_set (model_type : Z) : Py WindPlant unit :=
  if ((0 <=? model_type) && (model_type <? 4))%Z then
    try_except
      (value_set k_wake (VNum (inject_Z model_type)))
      (raise (Raise NotImplementedError EmptyString))
  else ret tt.

(** *** [num_turbines] *)

Definition num_turbines : Py WindPlant nat :=
  v <- value_get k_xcoords ;;
  lift (py_len v).

(** [self._layout.parameters.layout_x] *)
Definition parameters_layout_x (p : LayoutParameters) : outcome (list Q) :=
  match p with
  | WindCustomParameters layout_x _ => Returns layout_x
  | WindGridParameters =>
      Raises (Raise AttributeError "object has no attribute 'layout_x'")
  end.

Definition num_turbines_set (n_turbines : Z) : Py WindPlant unit :=
  w <- get_state ;;
  (if String.eqb (WindLayout.layout_mode (_layout w)) "custom" then
     layout_x <- lift (parameters_layout_x (WindLayout.parameters (_layout w))) ;;
     if (n_turbines =? Z.of_nat (length layout_x))%Z then
       on_layout (set_num_turbines n_turbines)
     else
       n_model <- num_turbines ;;
       if negb (n_turbines =? Z.of_nat n_model)%Z then
         n_turbs_layout <- num_turbines ;;
         raise (Raise ValueError (msg_num_turbines n_turbines n_turbs_layout))
       else ret tt
   else ret tt) ;;
  on_layout (set_num_turbines n_turbines).

(** *** [rotor_diameter] *)

Definition rotor_diameter : Py WindPlant value := value_get k_rotor.

Definition rotor_diameter_set (d : Q) : Py WindPlant unit :=
  value_set k_rotor (VNum d) ;;
  n <- num_turbines ;;
  num_turbines_set (Z.of_nat n).

(** *** [turb_rating] *)

Definition turb_rating : Py WindPlant Q :=
  v <- value_get k_powerout ;;
  l <- lift (as_sequence v) ;;
  lift (py_max l).

Definition turb_rating_set (rating_kw : Q) : Py WindPlant unit :=
  cur <- turb_rating ;;
  scaling <- lift (py_div rating_kw cur) ;;
  v <- value_get k_powerout ;;
  l <- lift (as_sequence v) ;;
  value_set k_powerout (VArr (map (fun i => i * scaling) l)) ;;
  r <- turb_rating ;;
  xs <- value_get k_xcoords ;;
  n <- lift (py_len xs) ;;
  value_set k_capacity (VNum (r * Q_of_nat n)).

Definition system_capacity_kw : Py WindPlant value := value_get k_capacity.

(** *** [modify_powercurve] *)

Definition modify_powercurve (rotor_diam rating_kw : Q) : Py WindPlant unit :=
  let elevation := 0%Z in
  let wind_default_max_cp := 45 # 100 in
  let wind_default_max_tip_speed := 60%Z in
  let wind_default_max_tip_speed_ratio := 8%Z in
  let wind_default_cut_in_speed := 4%Z in
  let wind_default_cut_out_speed := 25%Z in
  let wind_default_drive_train := 0%Z in
  try_except
    (v <- value_get k_rotor ;;
     d <- lift (as_number v) ;;
     on_system_model
       (calculate_powercurve rating_kw (py_int d) elevation wind_default_max_cp
          wind_default_max_tip_speed wind_default_max_tip_speed_ratio
          wind_default_cut_in_speed wind_default_cut_out_speed
          wind_default_drive_train))
    (raise (Raise RuntimeError (msg_powercurve rotor_diam rating_kw))) ;;
  value_set k_rotor (VNum rotor_diam) ;;
  n <- num_turbines ;;
  value_set k_capacity (VNum (rating_kw * Q_of_nat n)) ;;
  _ <- system_capacity_kw ;;
  ret tt.

(** *** [modify_coordinates] *)

Definition modify_coordinates (xcoords ycoords : list Q) : Py WindPlant unit :=
  (if negb (length xcoords =? length ycoords)%nat then
     raise (Raise ValueError msg_coordinates)
   else ret tt) ;;
  w <- get_state ;;
  (if String.eqb (WindConfig.model_name (config w)) "floris" then
     on_system_model (wind_farm_layout xcoords ycoords)
   else
     value_set k_xcoords (VArr xcoords) ;;
     value_set k_ycoords (VArr ycoords) ;;
     r <- turb_rating ;;
     value_set k_capacity (VNum (r * Q_of_nat (length xcoords)))) ;;
  _ <- system_capacity_kw ;;
  ret tt.

(** *** [initialize_pysam_wind_turbine]

    The body is read in the order of the source, one definition per
    top-level statement. *)

(** [if self.config.rotor_diameter is not None: ...] *)
Definition init_rotor_diameter : Py WindPlant unit :=
  w <- get_state ;;
  match WindConfig.rotor_diameter (config w) with
  | Some d => rotor_diameter_set d
  | None => ret tt
  end.

(** [if self.config.turbine_name is not None: ...].  The local variable
    [turbine_name] is bound in the [else] branch only; in the other branch
    the list of names is printed (output is not part of the state), the
    [ValueError] is built and dropped, no [raise] precedes it. *)
Definition init_turbine_name : Py WindPlant unit :=
  w <- get_state ;;
  match WindConfig.turbine_name (config w) with
  | None => ret tt
  | Some name =>
      let valid_name :=
        check_turbine_library_for_turbine name (WindConfig.turbine_group (config w)) in
      let turbine_name : option string :=
        if negb valid_name then
          let _dropped := Raise ValueError (msg_turbine_not_found name) in None
        else Some name in
      tn <- match turbine_name with
            | Some tn => ret tn
            | None => raise (Raise UnboundLocalError (msg_unbound_local "turbine_name"))
            end ;;
      w1 <- get_state ;;
      turbine_dict <- lift (get_pysam_turbine_specs tn w1) ;;
      assign turbine_dict ;;
      rd <- lift (dict_get turbine_dict k_rotor) ;;
      rd <- lift (as_number rd) ;;
      rotor_diameter_set rd ;;
      po <- lift (dict_get turbine_dict k_powerout) ;;
      po <- lift (as_sequence po) ;;
      m <- lift (py_max po) ;;
      turb_rating_set (np_round3 m) ;;
      match WindConfig.rotor_diameter (config w) with
      | None => ret tt
      | Some d =>
          v <- value_get k_rotor ;;
          cur <- lift (as_number v) ;;
          if py_ne d cur then raise (Raise ValueError (msg_rotor_diameter d cur))
          else ret tt
      end
  end.

(** [if self.config.hub_height is not None: ...] *)
Definition init_check_hub_height : Py WindPlant unit :=
  w <- get_state ;;
  match WindConfig.hub_height (config w) with
  | None => ret tt
  | Some h =>
      v <- value_get k_hub ;;
      cur <- lift (as_number v) ;;
      if py_ne h cur then raise (Raise ValueError (msg_hub_height h cur))
      else ret tt
  end.

(** The site after the hub height was found inside the measured range. *)
Definition site_update_hub_height (hub : Q) (s : SiteInfo.t) : SiteInfo.t :=
  {| SiteInfo.wind_resource :=
       {| WindResource.hub_height_meters := hub;
          WindResource.latitude := WindResource.latitude (SiteInfo.wind_resource s);
          WindResource.longitude := WindResource.longitude (SiteInfo.wind_resource s);
          WindResource.year := WindResource.year (SiteInfo.wind_resource s);
          WindResource.data := WindResource.data (SiteInfo.wind_resource s) |};
     SiteInfo.hub_height := hub;
     SiteInfo.elev := SiteInfo.elev s |}.

Definition site_set_hub_height (hub : Q) (s : SiteInfo.t) : SiteInfo.t :=
  {| SiteInfo.wind_resource := SiteInfo.wind_resource s;
     SiteInfo.hub_height := hub;
     SiteInfo.elev := SiteInfo.elev s |}.

Definition site_set_wind_resource (r : WindResource.t) (s : SiteInfo.t) : SiteInfo.t :=
  {| SiteInfo.wind_resource := r;
     SiteInfo.hub_height := SiteInfo.hub_height s;
     SiteInfo.elev := SiteInfo.elev s |}.

Definition modify_site (f : SiteInfo.t -> SiteInfo.t) : Py WindPlant unit :=
  fun w => (Returns tt, with_site (f (site w)) w).

(** [hub_height = self._system_model.Turbine.wind_turbine_hub_ht] and the
    [if hub_height != self.site.wind_resource.hub_height_meters: ...] that
    follows.  [a and b] evaluates [b] only when [a] holds. *)
Definition init_resource_hub_height : Py WindPlant unit :=
  v <- value_get k_hub ;;
  hub_height <- lift (as_number v) ;;
  w <- get_state ;;
  let resource := SiteInfo.wind_resource (site w) in
  if py_ne hub_height (WindResource.hub_height_meters resource) then
    lo <- lift (py_min (heights (WindResource.data resource))) ;;
    in_range <- (if Qle_bool lo hub_height then
                   hi <- lift (py_max (heights (WindResource.data resource))) ;;
                   ret (Qle_bool hub_height hi)
                 else ret false) ;;
    if in_range : bool then
      modify_site (site_update_hub_height hub_height)
    else
      modify_site (site_set_hub_height hub_height) ;;
      w1 <- get_state ;;
      let lat := WindResource.latitude (SiteInfo.wind_resource (site w1)) in
      let lon := WindResource.longitude (SiteInfo.wind_resource (site w1)) in
      let year := WindResource.year (SiteInfo.wind_resource (site w1)) in
      wind_resource <- lift (initialize_wind_resource (site w1) lat lon year) ;;
      modify_site (site_set_wind_resource wind_resource) ;;
      w2 <- get_state ;;
      value_set k_resource (VData (WindResource.data (SiteInfo.wind_resource (site w2))))
  else ret tt.

(** [if self.config.adjust_air_density_for_elevation and self.site.elev is not None: ...] *)
Definition init_air_density : Py WindPlant unit :=
  w <- get_state ;;
  if WindConfig.adjust_air_density_for_elevation (config w) then
    match SiteInfo.elev (site w) with
    | Some e => assign [(k_loss, VNum (calculate_air_density_losses e))]
    | None => ret tt
    end
  else ret tt.

(** The statements of the method up to the hub-height reconciliation. *)
Definition init_turbine_parameters : Py WindPlant unit :=
  init_rotor_diameter ;;
  init_turbine_name ;;
  init_check_hub_height.

Definition initialize_pysam_wind_turbine : Py WindPlant unit :=
  init_turbine_parameters ;;
  init_resource_hub_height ;;
  init_air_density.

End Plant.

(** ** Sizing the plant and changing its layout parameters *)

Definition msg_capacity : string := "WindPlant could not meet target system_capacity".

Definition msg_layout_mode : string :=
  "If providing layout_params as a dictionary, please specify layout_mode.".

Section Sizing.
Context `{Collaborators}.

(** [self._rating_range_kw], set once from the configuration when the plant
    is built (1000 to 3000 kW unless configured) and never assigned again. *)
Variable _rating_range_kw : Z * Z.

Definition system_capacity_by_rating (wind_size_kw : Q) : Py WindPlant unit :=
  n <- num_turbines ;;
  turb_rating_kw <- lift (py_div wind_size_kw (Q_of_nat n)) ;;
  if Qle_bool (inject_Z (fst _rating_range_kw)) turb_rating_kw
     && Qle_bool turb_rating_kw (inject_Z (snd _rating_range_kw))
  then turb_rating_set turb_rating_kw
  else raise (Raise RuntimeError msg_capacity).

(** [round(x)] with one argument is the nearest integer, a tie going to the
    even one.  Here it is applied to the quotient taken exactly; the program
    rounds the floating-point quotient, which can differ from the exact one
    in the last place and so fall on the other side of a tie. *)
Definition system_capacity_by_num_turbines (wind_size_kw : Q) : Py WindPlant unit :=
  r <- turb_rating ;;
  q <- lift (py_div wind_size_kw r) ;;
  let new_num_turbines := round_half_even q in
  n <- num_turbines ;;
  if negb (Z.of_nat n =? new_num_turbines)%Z then num_turbines_set new_num_turbines
  else ret tt.

(** The [system_capacity_kw] setter. *)
Definition system_capacity_kw_set (size_kw : Q) : Py WindPlant unit :=
  system_capacity_by_num_turbines size_kw.

End Sizing.

(** The [layout_params] argument of [modify_layout_params]: a dictionary or
    an object of one of the parameter classes. *)
Inductive layout_params_arg :=
| ParamsDict (d : list (string * value))
| ParamsObject (p : LayoutParameters).

Section LayoutParams.

(** The constructors of the four parameter classes applied to the items of
    a dictionary, and the layout object's [set_layout_params]: code of the
    repository outside this file. *)
Variable new_WindCustomParameters : list (string * value) -> outcome LayoutParameters.
Variable new_WindGridParameters : list (string * value) -> outcome LayoutParameters.
Variable new_WindBasicGridParameters : list (string * value) -> outcome LayoutParameters.
Variable new_WindBoundaryGridParameters : list (string * value) -> outcome LayoutParameters.
Variable set_layout_params : Q -> layout_params_arg -> Py (WindLayout.t * SystemModel) unit.

Definition modify_layout_params (wind_capacity_kW : Q) (layout_params : layout_params_arg)
    (layout_mode : option string) : Py WindPlant unit :=
  layout_params <-
    match layout_params with
    | ParamsDict d =>
        match layout_mode with
        | Some mode =>
            if String.eqb mode "custom" then
              p <- lift (new_WindCustomParameters d) ;; ret (ParamsObject p)
            else if String.eqb mode "grid" then
              p <- lift (new_WindGridParameters d) ;; ret (ParamsObject p)
            else if String.eqb mode "basicgrid" then
              p <- lift (new_WindBasicGridParameters d) ;; ret (ParamsObject p)
            else if String.eqb mode "boundarygrid" then
              p <- lift (new_WindBoundaryGridParameters d) ;; ret (ParamsObject p)
            else ret (ParamsDict d)
        | None => raise (Raise ValueError msg_layout_mode)
        end
    | ParamsObject p => ret (ParamsObject p)
    end ;;
  on_layout (set_layout_params wind_capacity_kW layout_params).

End LayoutParams.

(** ** Concrete plants and stand-ins for the collaborators *)

Definition resource_at (hub : Q) (hs : list Q) : WindResource.t :=
  {| WindResource.hub_height_meters := hub;
     WindResource.latitude := 35 # 1;
     WindResource.longitude := -(101 # 1);
     WindResource.year := 2012;
     WindResource.data := {| heights := hs; fields := [1; 2; 3; 4]%Z; data_rows := [] |} |}.

(** Stand-ins: the library knows one turbine, the layout object accepts any
    count and leaves the model alone, the download returns data measured at
    the site's hub height, and the engine's power-curve calculation fails
    for a rating above 5000 kW. *)
Definition stub : Collaborators := {|
  check_turbine_library_for_turbine := fun name _ => String.eqb name "NREL_Reference_2MW";
  get_pysam_turbine_specs := fun _ _ =>
    Returns [(k_rotor, VNum 116); (k_hub, VNum 80); (k_powerout, VArr [0; 1000; 2000])];
  set_num_turbines := fun _ => ret tt;
  initialize_wind_resource := fun s _ _ _ =>
    Returns (resource_at (SiteInfo.hub_height s) [SiteInfo.hub_height s]);
  calculate_air_density_losses := fun _ => 0;
  calculate_powercurve := fun rating _ _ _ _ _ _ _ _ =>
    if Qlt_le_dec 5000 rating
    then raise (Raise (OtherError "Exception") "calculate_powercurve error: infeasible rating")
    else ret tt;
  wind_farm_layout := fun _ _ => ret tt;
  format_number := fun q => pretty (Qfloor q)
|}.

Definition engine0 : SystemModel :=
  <[k_powerout := VArr [0; 500; 1000; 1000; 0]]>
  (<[k_windspeeds := VArr [0; 5; 10; 20; 30]]>
  (<[k_xcoords := VArr [0; 400; 800]]>
  (<[k_ycoords := VArr [0; 0; 0]]>
  (<[k_rotor := VNum 77]>
  (<[k_hub := VNum 80]>
  (<[k_wake := VNum 1]> ∅)))))).

Definition config0 : WindConfig.t :=
  {| WindConfig.num_turbines := 3;
     WindConfig.turbine_rating_kw := None;
     WindConfig.rotor_diameter := None;
     WindConfig.hub_height := None;
     WindConfig.turbine_name := None;
     WindConfig.turbine_group := "none";
     WindConfig.layout_mode := "grid";
     WindConfig.model_name := "pysam";
     WindConfig.adjust_air_density_for_elevation := false |}.

Definition site0 : SiteInfo.t :=
  {| SiteInfo.wind_resource := resource_at 80 [80; 100];
     SiteInfo.hub_height := 80;
     SiteInfo.elev := None |}.

Definition grid_layout : WindLayout.t :=
  {| WindLayout.layout_mode := "grid"; WindLayout.parameters := WindGridParameters |}.

Definition plant0 : WindPlant :=
  {| site := site0; config := config0; _system_model := engine0; _layout := grid_layout |}.

(** A plant configured with a turbine name that the library does not know. *)
Definition config_unknown_turbine : WindConfig.t :=
  {| WindConfig.num_turbines := 3;
     WindConfig.turbine_rating_kw := None;
     WindConfig.rotor_diameter := None;
     WindConfig.hub_height := None;
     WindConfig.turbine_name := Some "NoSuchTurbine";
     WindConfig.turbine_group := "none";
     WindConfig.layout_mode := "grid";
     WindConfig.model_name := "pysam";
     WindConfig.adjust_air_density_for_elevation := false |}.

Definition plant_unknown_turbine : WindPlant :=
  {| site := site0; config := config_unknown_turbine; _system_model := engine0;
     _layout := grid_layout |}.

(** A plant whose resource data was measured at 100 m and 120 m only, and one
    whose data brackets the 80 m hub. *)
Definition plant_low_hub : WindPlant :=
  {| site := {| SiteInfo.wind_resource := resource_at 100 [100; 120];
                SiteInfo.hub_height := 100; SiteInfo.elev := None |};
     config := config0; _system_model := engine0; _layout := grid_layout |}.

Definition plant_bracketed_hub : WindPlant :=
  {| site := {| SiteInfo.wind_resource := resource_at 100 [60; 100];
                SiteInfo.hub_height := 100; SiteInfo.elev := None |};
     config := config0; _system_model := engine0; _layout := grid_layout |}.

(** A plant with a custom layout of two positions, held by the engine too. *)
Definition custom_layout : WindLayout.t :=
  {| WindLayout.layout_mode := "custom";
     WindLayout.parameters := WindCustomParameters [0; 400] [0; 0] |}.

Definition config_custom : WindConfig.t :=
  {| WindConfig.num_turbines := 2;
     WindConfig.turbine_rating_kw := None;
     WindConfig.rotor_diameter := None;
     WindConfig.hub_height := None;
     WindConfig.turbine_name := None;
     WindConfig.turbine_group := "none";
     WindConfig.layout_mode := "custom";
     WindConfig.model_name := "pysam";
     WindConfig.adjust_air_density_for_elevation := false |}.

Definition engine_custom : SystemModel :=
  <[k_ycoords := VArr [0; 0]]> (<[k_xcoords := VArr [0; 400]]> engine0).

Definition plant_custom : WindPlant :=
  {| site := site0; config := config_custom; _system_model := engine_custom;
     _layout := custom_layout |}.

(** The same plant after [modify_coordinates [0; 400; 800] [0; 0; 0]]. *)
Definition plant_custom_moved : WindPlant :=
  {| site := site0; config := config_custom;
     _system_model :=
       <[k_capacity := VNum (1000 * Q_of_nat 3)]>
       (<[k_ycoords := VArr [0; 0; 0]]> (<[k_xcoords := VArr [0; 400; 800]]> engine_custom));
     _layout := custom_layout |}.

(** A pysam plant whose stored power curve is the empty array, and one whose
    engine was never given a power curve. *)
Definition plant_no_curve : WindPlant :=
  {| site := site0; config := config0;
     _system_model := <[k_powerout := VArr []]> engine0; _layout := grid_layout |}.


(** A plant whose engine holds a wake model outside 0..3, and one whose
    power curve is zero throughout. *)
Definition plant_wake_unknown : WindPlant :=
  {| site := site0; config := config0;
     _system_model := <[k_wake := VNum 7]> engine0; _layout := grid_layout |}.

Definition plant_zero_curve : WindPlant :=
  {| site := site0; config := config0;
     _system_model := <[k_powerout := VArr [0; 0; 0]]> engine0; _layout := grid_layout |}.

(** A plant whose engine holds no turbine position. *)
Definition plant_no_turbines : WindPlant :=
  {| site := site0; config := config0;
     _system_model := <[k_ycoords := VArr []]> (<[k_xcoords := VArr []]> engine0);
     _layout := grid_layout |}.

(** A plant configured with a hub height of 90 m over an engine turbine of
    80 m, and a plant at 1500 m that asks for the air-density adjustment. *)
Definition config_hub_90 : WindConfig.t :=
  {| WindConfig.num_turbines := 3;
     WindConfig.turbine_rating_kw := None;
     WindConfig.rotor_diameter := None;
     WindConfig.hub_height := Some (90 # 1);
     WindConfig.turbine_name := None;
     WindConfig.turbine_group := "none";
     WindConfig.layout_mode := "grid";
     WindConfig.model_name := "pysam";
     WindConfig.adjust_air_density_for_elevation := false |}.

Definition plant_hub_90 : WindPlant :=
  {| site := site0; config := config_hub_90; _system_model := engine0;
     _layout := grid_layout |}.

Definition config_adjust : WindConfig.t :=
  {| WindConfig.num_turbines := 3;
     WindConfig.turbine_rating_kw := None;
     WindConfig.rotor_diameter := None;
     WindConfig.hub_height := Some (80 # 1);
     WindConfig.turbine_name := None;
     WindConfig.turbine_group := "none";
     WindConfig.layout_mode := "grid";
     WindConfig.model_name := "pysam";
     WindConfig.adjust_air_density_for_elevation := true |}.

Definition plant_elevated : WindPlant :=
  {| site := {| SiteInfo.wind_resource := resource_at 80 [80; 100];
                SiteInfo.hub_height := 80; SiteInfo.elev := Some (1500 # 1) |};
     config := config_adjust; _system_model := engine0; _layout := grid_layout |}.

(** The same site with resource data measured at 60 m and 100 m, recorded at
    a hub height of 100 m. *)
Definition plant_elevated_bracketed : WindPlant :=
  {| site := {| SiteInfo.wind_resource := resource_at 100 [60; 100];
                SiteInfo.hub_height := 100; SiteInfo.elev := Some (1500 # 1) |};
     config := config_adjust; _system_model := engine0; _layout := grid_layout |}.





(** The labels the [wake_model] getter returns, by index. *)
Definition wake_model_labels : list string :=
  ["0 [Simple]"; "1 [Park (WAsP)]"; "2 [Eddy Viscosity]"; "3 [Constant %]"].

(** ** Which parts of the plant a computation may change *)

(** [preserves writes c]: running [c], whether it returns or raises, leaves
    the site, the configuration and the layout as they were, and leaves every
    engine variable outside [writes] as it was. *)
Definition preserves {A} (writes : string -> Prop) (c : Py WindPlant A) : Prop :=
  forall w,
    site (snd (c w)) = site w /\
    config (snd (c w)) = config w /\
    _layout (snd (c w)) = _layout w /\
    forall name, writes name \/ _system_model (snd (c w)) !! name = _system_model w !! name.

(** The engine variables that the [turb_rating] setter assigns. *)
Definition turb_rating_writes (name : string) : Prop :=
  name = k_powerout \/ name = k_capacity.

(** The plant a successful rating change leaves: the curve of maximum [m]
    scaled by [rating_kw / m], the capacity for the turbines at [xs]. *)
Definition rated_plant (w : WindPlant) (rating_kw : Q) (curve xs : list Q) (m : Q)
    : WindPlant :=
  with_system_model
    (<[k_capacity := VNum (m * (rating_kw / m) * Q_of_nat (length xs))]>
       (<[k_powerout := VArr (map (fun i => i * (rating_kw / m)) curve)]>
          (_system_model w))) w.

(** The engine variables that [modify_coordinates] assigns for the pysam
    model. *)
Definition coordinates_writes (name : string) : Prop :=
  name = k_xcoords \/ name = k_ycoords \/ name = k_capacity.

(** ** Running computations *)

Lemma bind_returns {S A B} (c : Py S A) (k : A -> Py S B) s a s' :
  c s = (Returns a, s') -> bind c k s = k a s'.
Proof. intros E. unfold bind. now rewrite E. Qed.

Lemma bind_raises {S A B} (c : Py S A) (k : A -> Py S B) s e s' :
  c s = (Raises e, s') -> bind c k s = (Raises e, s').
Proof. intros E. unfold bind. now rewrite E. Qed.

Lemma with_system_model_id w : with_system_model (_system_model w) w = w.
Proof. now destruct w. Qed.

Lemma value_get_some w name v :
  _system_model w !! name = Some v -> value_get name w = (Returns v, w).
Proof.
  intros E. unfold value_get, on_system_model, engine_value_get.
  rewrite E. now rewrite with_system_model_id.
Qed.

Lemma value_get_state w name : snd (value_get name w) = w.
Proof.
  unfold value_get, on_system_model, engine_value_get.
  destruct (_system_model w !! name); simpl; apply with_system_model_id.
Qed.

Lemma value_set_run w name v :
  value_set name v w = (Returns tt, with_system_model (<[name := v]> (_system_model w)) w).
Proof. reflexivity. Qed.

(** ** The maximum of a scaled sequence *)

Lemma py_max_from_scale (s : Q) (l : list Q) :
  (0 < s)%Q ->
  forall m, py_max_from (m * s) (map (fun i => i * s) l) = py_max_from m l * s.
Proof.
  intros Hs. induction l as [|x l IH]; intros m; simpl; [reflexivity|].
  destruct (Qlt_le_dec (m * s) (x * s)) as [H1|H1];
    destruct (Qlt_le_dec m x) as [H2|H2]; try apply IH.
  - apply Qmult_lt_r in H1; [|exact Hs]. exfalso. apply (Qlt_not_le _ _ H1 H2).
  - apply Qmult_le_r in H1; [|exact Hs]. exfalso. apply (Qlt_not_le _ _ H2 H1).
Qed.

Lemma py_max_scale (s m : Q) (l : list Q) :
  (0 < s)%Q -> py_max l = Returns m ->
  py_max (map (fun i => i * s) l) = Returns (m * s).
Proof.
  intros Hs. destruct l as [|x l]; simpl; [discriminate|].
  intros [= <-]. now rewrite py_max_from_scale.
Qed.

Lemma py_div_nonzero (a b : Q) : ~ (b == 0)%Q -> py_div a b = Returns (a / b).
Proof.
  intros Hb. unfold py_div. destruct (Qeq_bool b 0) eqn:E; [|reflexivity].
  apply Qeq_bool_eq in E. contradiction.
Qed.

Lemma scale_to_rating (rating m n : Q) :
  (0 < m)%Q -> (m * (rating / m) * n == rating * n)%Q.
Proof.
  intros Hm. assert (Hm' : ~ (m == 0)%Q).
  { intros E. rewrite E in Hm. discriminate Hm. }
  now field.
Qed.

(** ** The [turb_rating] setter *)

Section TurbRating.

Variable w : WindPlant.
Variable rating_kw : Q.
Variables (curve : list Q) (m : Q).
Hypothesis Hcurve : _system_model w !! k_powerout = Some (VArr curve).
Hypothesis Hmax : py_max curve = Returns m.
Hypothesis Hm : (0 < m)%Q.
Hypothesis Hrating : (0 < rating_kw)%Q.

Let scaled := map (fun i => i * (rating_kw / m)) curve.
Let w1 := with_system_model (<[k_powerout := VArr scaled]> (_system_model w)) w.

Lemma scaling_positive : (0 < rating_kw / m)%Q.
Proof using Hm Hrating.
  unfold Qdiv. apply Qmult_lt_0_compat; [exact Hrating|].
  now apply Qinv_lt_0_compat.
Qed.

Lemma turb_rating_run : turb_rating w = (Returns m, w).
Proof using Hcurve Hmax.
  unfold turb_rating.
  rewrite (bind_returns _ _ _ _ _ (value_get_some _ _ _ Hcurve)).
  unfold bind, lift. simpl. now rewrite Hmax.
Qed.

Lemma turb_rating_after_scaling : turb_rating w1 = (Returns (m * (rating_kw / m)), w1).
Proof using Hcurve Hmax Hm Hrating.
  unfold turb_rating.
  assert (E : _system_model w1 !! k_powerout = Some (VArr scaled)).
  { unfold w1. simpl. apply lookup_insert_eq. }
  rewrite (bind_returns _ _ _ _ _ (value_get_some _ _ _ E)).
  unfold bind, lift. simpl. unfold scaled.
  now rewrite (py_max_scale _ _ _ scaling_positive Hmax).
Qed.

(** The setter up to the point where the scaled curve is stored. *)
Lemma turb_rating_set_unfold :
  turb_rating_set rating_kw w =
  (xs <- value_get k_xcoords ;;
   n <- lift (py_len xs) ;;
   value_set k_capacity (VNum (m * (rating_kw / m) * Q_of_nat n))) w1.
Proof using Hcurve Hmax Hm Hrating.
  unfold turb_rating_set.
  rewrite (bind_returns _ _ _ _ _ turb_rating_run).
  assert (Hd : py_div rating_kw m = Returns (rating_kw / m)).
  { apply py_div_nonzero. intros E. rewrite E in Hm. discriminate Hm. }
  rewrite (bind_returns _ _ w (rating_kw / m) w); [|unfold lift; now rewrite Hd].
  rewrite (bind_returns _ _ _ _ _ (value_get_some _ _ _ Hcurve)).
  rewrite (bind_returns _ _ w curve w); [|reflexivity].
  rewrite (bind_returns _ _ w tt w1); [|reflexivity].
  now rewrite (bind_returns _ _ _ _ _ turb_rating_after_scaling).
Qed.

End TurbRating.

(** ** Composing what computations preserve *)

Lemma preserves_ret {A} writes (a : A) : preserves writes (ret a).
Proof. intros w. simpl. auto. Qed.

Lemma preserves_raise {A} writes e : preserves writes (@raise WindPlant A e).
Proof. intros w. simpl. auto. Qed.

Lemma preserves_lift {A} writes (o : outcome A) : preserves writes (lift o).
Proof. intros w. simpl. auto. Qed.

Lemma preserves_get_state writes : preserves writes get_state.
Proof. intros w. simpl. auto. Qed.

Lemma preserves_value_get writes name : preserves writes (value_get name).
Proof. intros w. rewrite value_get_state. auto. Qed.

Lemma preserves_value_set (writes : string -> Prop) name v :
  writes name -> preserves writes (value_set name v).
Proof.
  intros Hn w. rewrite value_set_run. simpl. repeat split.
  intros k. destruct (decide (name = k)) as [<-|Hne]; [now left|right].
  now apply lookup_insert_ne.
Qed.

Lemma preserves_bind {A B} writes (c : Py WindPlant A) (k : A -> Py WindPlant B) :
  preserves writes c -> (forall a, preserves writes (k a)) -> preserves writes (bind c k).
Proof.
  intros Hc Hk w. specialize (Hc w). unfold bind.
  destruct (c w) as [[a|e] w']; simpl in *; [|exact Hc].
  destruct Hc as (Hs & Hg & Hl & Hv). specialize (Hk a w').
  destruct Hk as (Hs' & Hg' & Hl' & Hv').
  rewrite Hs', Hg', Hl'. repeat split; try assumption.
  intros name. destruct (Hv' name) as [?|E']; [now left|].
  destruct (Hv name) as [?|E]; [now left|right]. congruence.
Qed.

Lemma preserves_try_except {A} writes (body handler : Py WindPlant A) :
  preserves writes body -> preserves writes handler ->
  preserves writes (try_except body handler).
Proof.
  intros Hb Hh w. specialize (Hb w). unfold try_except.
  destruct (body w) as [[a|e] w']; simpl in *; [exact Hb|].
  destruct Hb as (Hs & Hg & Hl & Hv). specialize (Hh w').
  assert (E : snd (match handler w' with
                   | (Returns a, s'') => (Returns a, s'')
                   | (Raises e', s'') => (Raises (during e e'), s'')
                   end) = snd (handler w')).
  { now destruct (handler w') as [[a|e'] w'']. }
  rewrite E.
  destruct Hh as (Hs' & Hg' & Hl' & Hv').
  rewrite Hs', Hg', Hl'. repeat split; try assumption.
  intros name. destruct (Hv' name) as [?|E']; [now left|].
  destruct (Hv name) as [?|E0]; [now left|right]. congruence.
Qed.

Create HintDb frame.
#[local] Hint Resolve preserves_ret preserves_raise preserves_lift preserves_get_state
  preserves_value_get preserves_try_except : frame.

Ltac frame_steps :=
  repeat (first [ apply preserves_bind; [|intros ?]
                | apply preserves_value_set; auto
                | solve [auto with frame] ]).

Lemma preserves_turb_rating writes : preserves writes turb_rating.
Proof. unfold turb_rating. frame_steps. Qed.

Lemma preserves_turb_rating_set rating_kw :
  preserves turb_rating_writes (turb_rating_set rating_kw).
Proof.
  unfold turb_rating_set.
  apply preserves_bind; [apply preserves_turb_rating|intros cur].
  frame_steps; try apply preserves_turb_rating; unfold turb_rating_writes; auto.
Qed.

(** ** The wake-model setter *)

Lemma wake_index_out_of_range (model_type : Z) :
  (model_type < 0 \/ 3 < model_type)%Z ->
  ((0 <=? model_type) && (model_type <? 4))%Z = false.
Proof. intros Hr. apply andb_false_iff. lia. Qed.

(** An index in the range is stored. *)
Lemma wake_model_set_in_range (w : WindPlant) (model_type : Z) :
  (0 <= model_type < 4)%Z ->
  wake_model_set model_type w =
  (Returns tt,
   with_system_model (<[k_wake := VNum (inject_Z model_type)]> (_system_model w)) w).
Proof.
  intros Hr. unfold wake_model_set.
  replace ((0 <=? model_type) && (model_type <? 4))%Z with true; [reflexivity|].
  symmetry. apply andb_true_iff. lia.
Qed.

(** C1, as the code has it: for every wake-model index outside 0..3 the
    setter does not fail.  It returns normally, no exception of any class
    is raised, and the wake model stored in the engine is the one that was
    stored before: the index is ignored without notice. *)
Theorem wake_model_set_out_of_range_returns (w : WindPlant) (model_type : Z) :
  (model_type < 0 \/ 3 < model_type)%Z ->
  fst (wake_model_set model_type w) = Returns tt /\
  (forall e, fst (wake_model_set model_type w) <> Raises e) /\
  _system_model (snd (wake_model_set model_type w)) !! k_wake = _system_model w !! k_wake.
Proof.
  intros Hr. unfold wake_model_set. rewrite (wake_index_out_of_range _ Hr).
  simpl. repeat split. intros e. discriminate.
Qed.

Lemma wake_model_set_out_of_range_returns_witness :
  fst (wake_model_set 4 plant0) = Returns tt /\
  (forall e, fst (wake_model_set 4 plant0) <> Raises e) /\
  _system_model (snd (wake_model_set 4 plant0)) !! k_wake = _system_model plant0 !! k_wake.
Proof. apply (wake_model_set_out_of_range_returns plant0 4). right. lia. Defined.

(** C1 as stated fails: assigning the index 7 to a plant whose engine holds
    wake model 1 raises nothing, and the engine still holds wake model 1. *)
Lemma wake_model_set_invalid_index_not_refused :
  ~ (exists e, fst (wake_model_set 7 plant0) = Raises e) /\
  _system_model (snd (wake_model_set 7 plant0)) !! k_wake = Some (VNum 1).
Proof. split; [intros [e He]; discriminate He|reflexivity]. Qed.

(** C10: for every wake-model index outside 0..3 the setter is a no-op: it
    returns and the whole plant, the engine's stored wake model and every
    other engine variable included, is exactly as before. *)
Theorem wake_model_set_out_of_range_noop (w : WindPlant) (model_type : Z) :
  (model_type < 0 \/ 3 < model_type)%Z ->
  wake_model_set model_type w = (Returns tt, w).
Proof.
  intros Hr. unfold wake_model_set. now rewrite (wake_index_out_of_range _ Hr).
Qed.

Lemma wake_model_set_out_of_range_noop_witness :
  wake_model_set (-1) plant0 = (Returns tt, plant0).
Proof. apply (wake_model_set_out_of_range_noop plant0 (-1)). left. lia. Defined.

(** ** Rating changes *)

(** C3: for a positive rating and a stored power curve whose maximum is
    positive, assigning [turb_rating] succeeds, and afterwards the stored
    system capacity equals, in exact arithmetic, the rating times the number
    of turbines, which is the length of the engine's x-coordinate array. *)
Theorem turb_rating_set_system_capacity
    (w : WindPlant) (rating_kw m : Q) (curve xs : list Q) :
  _system_model w !! k_powerout = Some (VArr curve) ->
  _system_model w !! k_xcoords = Some (VArr xs) ->
  py_max curve = Returns m ->
  (0 < m)%Q ->
  (0 < rating_kw)%Q ->
  exists w' c,
    turb_rating_set rating_kw w = (Returns tt, w') /\
    num_turbines w' = (Returns (length xs), w') /\
    system_capacity_kw w' = (Returns (VNum c), w') /\
    (c == rating_kw * Q_of_nat (length xs))%Q.
Proof.
  intros Hcurve Hxs Hmax Hm Hr.
  rewrite (turb_rating_set_unfold w rating_kw curve m Hcurve Hmax Hm Hr).
  set (w1 := with_system_model _ w).
  assert (Hxs1 : _system_model w1 !! k_xcoords = Some (VArr xs)).
  { unfold w1. simpl. rewrite lookup_insert_ne; [exact Hxs|discriminate]. }
  rewrite (bind_returns _ _ _ _ _ (value_get_some _ _ _ Hxs1)).
  rewrite (bind_returns _ _ w1 (length xs) w1); [|reflexivity].
  rewrite value_set_run.
  eexists. exists (m * (rating_kw / m) * Q_of_nat (length xs)).
  split; [reflexivity|]. split; [|split].
  - set (w2 := with_system_model _ w1).
    assert (Hxs2 : _system_model w2 !! k_xcoords = Some (VArr xs)).
    { unfold w2. simpl. rewrite lookup_insert_ne; [exact Hxs1|discriminate]. }
    unfold num_turbines.
    now rewrite (bind_returns _ _ _ _ _ (value_get_some _ _ _ Hxs2)).
  - unfold system_capacity_kw. apply value_get_some. simpl. apply lookup_insert_eq.
  - now apply scale_to_rating.
Qed.

Lemma turb_rating_set_system_capacity_witness :
  exists w' c,
    turb_rating_set 250 plant0 = (Returns tt, w') /\
    num_turbines w' = (Returns 3%nat, w') /\
    system_capacity_kw w' = (Returns (VNum c), w') /\
    (c == 250 * Q_of_nat 3)%Q.
Proof.
  apply (turb_rating_set_system_capacity plant0 250 1000
           [0; 500; 1000; 1000; 0] [0; 400; 800]); reflexivity.
Defined.

Lemma lookup_scaled (s : Q) (l : list Q) (i : nat) (x : Q) :
  l !! i = Some x -> map (fun y => y * s) l !! i = Some (x * s).
Proof.
  revert i. induction l as [|y l IH]; intros [|i]; simpl; try discriminate.
  - now intros [= ->].
  - apply IH.
Qed.

(** C4: for a positive rating and a stored power curve whose maximum [m] is
    positive, after assigning [turb_rating] the stored power-curve array has
    the length of the prior one and each of its elements is the prior
    element at the same index times the one scalar [rating_kw / m]. *)
Theorem turb_rating_set_scales_powercurve
    (w : WindPlant) (rating_kw m : Q) (curve : list Q) :
  _system_model w !! k_powerout = Some (VArr curve) ->
  py_max curve = Returns m ->
  (0 < m)%Q ->
  (0 < rating_kw)%Q ->
  exists curve',
    _system_model (snd (turb_rating_set rating_kw w)) !! k_powerout = Some (VArr curve') /\
    curve' = map (fun x => x * (rating_kw / m)) curve /\
    length curve' = length curve /\
    forall i x, curve !! i = Some x -> curve' !! i = Some (x * (rating_kw / m)).
Proof.
  intros Hcurve Hmax Hm Hr.
  exists (map (fun x => x * (rating_kw / m)) curve).
  split; [|split; [reflexivity|split; [apply length_map|intros i x; apply lookup_scaled]]].
  rewrite (turb_rating_set_unfold w rating_kw curve m Hcurve Hmax Hm Hr).
  set (w1 := with_system_model _ w). set (tail := bind _ _).
  assert (Ht : preserves (eq k_capacity) tail).
  { unfold tail. frame_steps. }
  destruct (Ht w1) as (_ & _ & _ & Hv).
  destruct (Hv k_powerout) as [E|E]; [discriminate E|].
  rewrite E. unfold w1. simpl. apply lookup_insert_eq.
Qed.

Lemma turb_rating_set_scales_powercurve_witness :
  exists curve',
    _system_model (snd (turb_rating_set 250 plant0)) !! k_powerout = Some (VArr curve') /\
    curve' = map (fun x => x * (250 / 1000)) [0; 500; 1000; 1000; 0] /\
    length curve' = length [0; 500; 1000; 1000; 0] /\
    forall i x, [0; 500; 1000; 1000; 0] !! i = Some x -> curve' !! i = Some (x * (250 / 1000)).
Proof.
  apply (turb_rating_set_scales_powercurve plant0 250 1000 [0; 500; 1000; 1000; 0]);
    reflexivity.
Defined.

(** C9: assigning [turb_rating], for a positive rating as for any other and
    whether the assignment returns or raises, changes at most the engine's
    power-curve output array and its system capacity: the power-curve wind
    speeds, both coordinate arrays, the rotor diameter and the hub height
    are as before, as is every other engine variable, and so are the site,
    the configuration and the layout. *)
Theorem turb_rating_set_frame (w : WindPlant) (rating_kw : Q) :
  let w' := snd (turb_rating_set rating_kw w) in
  _system_model w' !! k_windspeeds = _system_model w !! k_windspeeds /\
  _system_model w' !! k_xcoords = _system_model w !! k_xcoords /\
  _system_model w' !! k_ycoords = _system_model w !! k_ycoords /\
  _system_model w' !! k_rotor = _system_model w !! k_rotor /\
  _system_model w' !! k_hub = _system_model w !! k_hub /\
  site w' = site w /\ config w' = config w /\ _layout w' = _layout w /\
  forall name,
    name = k_powerout \/ name = k_capacity \/
    _system_model w' !! name = _system_model w !! name.
Proof.
  intros w'. destruct (preserves_turb_rating_set rating_kw w) as (Hs & Hg & Hl & Hv).
  fold w' in Hs, Hg, Hl, Hv.
  assert (Hk : forall name, name <> k_powerout -> name <> k_capacity ->
                 _system_model w' !! name = _system_model w !! name).
  { intros name H1 H2. destruct (Hv name) as [[E|E]|E]; [contradiction..|exact E]. }
  repeat split; try assumption; try (apply Hk; discriminate).
  intros name. destruct (Hv name) as [[E|E]|E]; auto.
Qed.

(** ** Coordinate changes *)

Section Coordinates.
Context `{Collaborators}.

Lemma lengths_differ (xcoords ycoords : list Q) :
  length xcoords <> length ycoords -> (length xcoords =? length ycoords)%nat = false.
Proof. intros Hne. now apply Nat.eqb_neq. Qed.

Lemma modify_coordinates_pysam (w : WindPlant) (xcoords ycoords : list Q) :
  length xcoords = length ycoords ->
  String.eqb (WindConfig.model_name (config w)) "floris" = false ->
  modify_coordinates xcoords ycoords w =
  (value_set k_xcoords (VArr xcoords) ;;
   value_set k_ycoords (VArr ycoords) ;;
   r <- turb_rating ;;
   value_set k_capacity (VNum (r * Q_of_nat (length xcoords))) ;;
   _ <- system_capacity_kw ;;
   ret tt) w.
Proof.
  intros Hlen Hm. unfold modify_coordinates.
  rewrite (proj2 (Nat.eqb_eq _ _) Hlen). unfold bind at 1. simpl.
  unfold bind at 1. simpl. rewrite Hm.
  unfold bind. simpl.
  now destruct (turb_rating _) as [[r|e] s].
Qed.


End Coordinates.



(** ** The turbine count under a custom layout *)

Section NumTurbines.
Context `{Collaborators}.

Variable w : WindPlant.
Variable n_turbines : Z.
Variables layout_x layout_y xs : list Q.
Hypothesis Hmode : WindLayout.layout_mode (_layout w) = "custom".
Hypothesis Hparams : WindLayout.parameters (_layout w) = WindCustomParameters layout_x layout_y.
Hypothesis Hxs : _system_model w !! k_xcoords = Some (VArr xs).

Lemma num_turbines_run : num_turbines w = (Returns (length xs), w).
Proof using Hxs.
  unfold num_turbines. now rewrite (bind_returns _ _ _ _ _ (value_get_some _ _ _ Hxs)).
Qed.

Lemma num_turbines_set_matches_layout :
  n_turbines = Z.of_nat (length layout_x) ->
  num_turbines_set n_turbines w =
  (on_layout (set_num_turbines n_turbines) ;; on_layout (set_num_turbines n_turbines)) w.
Proof using Hmode Hparams.
  intros Hn. unfold num_turbines_set, bind, get_state, lift.
  rewrite Hmode, Hparams. simpl.
  now rewrite (proj2 (Z.eqb_eq _ _) Hn).
Qed.

Lemma num_turbines_set_matches_model :
  n_turbines <> Z.of_nat (length layout_x) ->
  n_turbines = Z.of_nat (length xs) ->
  num_turbines_set n_turbines w = on_layout (set_num_turbines n_turbines) w.
Proof using Hmode Hparams Hxs.
  intros Hl Hn. unfold num_turbines_set, bind, get_state, lift.
  rewrite Hmode, Hparams. simpl.
  rewrite (proj2 (Z.eqb_neq _ _) Hl), num_turbines_run.
  now rewrite (proj2 (Z.eqb_eq _ _) Hn).
Qed.

Lemma num_turbines_set_mismatch :
  n_turbines <> Z.of_nat (length layout_x) ->
  n_turbines <> Z.of_nat (length xs) ->
  num_turbines_set n_turbines w =
  (Raises (Raise ValueError (msg_num_turbines n_turbines (length xs))), w).
Proof using Hmode Hparams Hxs.
  intros Hl Hn. unfold num_turbines_set, bind, get_state, lift.
  rewrite Hmode, Hparams. simpl.
  rewrite (proj2 (Z.eqb_neq _ _) Hl), num_turbines_run.
  rewrite (proj2 (Z.eqb_neq _ _) Hn). simpl.
  now rewrite num_turbines_run.
Qed.

End NumTurbines.

(** C7, as the code has it: under a custom layout with coordinate lists
    [layout_x], [layout_y], and with [xs] the x-coordinates held by the
    engine, assigning [num_turbines = n] raises the [ValueError] with its
    message (naming [n] and the engine's count) exactly when [n] differs
    from the length of [layout_x] and from the length of [xs] as well.  When
    [n] is the length of [layout_x], or is not but is the length of [xs],
    the setter raises nothing of its own and hands [n] to the layout's
    [set_num_turbines] (twice in the first case). *)
Theorem num_turbines_set_custom `{Collaborators}
    (w : WindPlant) (n_turbines : Z) (layout_x layout_y xs : list Q) :
  WindLayout.layout_mode (_layout w) = "custom" ->
  WindLayout.parameters (_layout w) = WindCustomParameters layout_x layout_y ->
  _system_model w !! k_xcoords = Some (VArr xs) ->
  (n_turbines <> Z.of_nat (length layout_x) ->
   n_turbines <> Z.of_nat (length xs) ->
   num_turbines_set n_turbines w =
   (Raises (Raise ValueError (msg_num_turbines n_turbines (length xs))), w)) /\
  (n_turbines <> Z.of_nat (length layout_x) ->
   n_turbines = Z.of_nat (length xs) ->
   num_turbines_set n_turbines w = on_layout (set_num_turbines n_turbines) w) /\
  (n_turbines = Z.of_nat (length layout_x) ->
   num_turbines_set n_turbines w =
   (on_layout (set_num_turbines n_turbines) ;;
    on_layout (set_num_turbines n_turbines)) w).
Proof.
  intros Hmode Hparams Hxs. split; [|split].
  - now apply num_turbines_set_mismatch with (layout_x := layout_x) (layout_y := layout_y).
  - now apply num_turbines_set_matches_model with (layout_x := layout_x) (layout_y := layout_y).
  - now apply num_turbines_set_matches_layout with (layout_x := layout_x) (layout_y := layout_y).
Qed.

Lemma num_turbines_set_custom_witness :
  @num_turbines_set stub 5 plant_custom
    = (Raises (Raise ValueError (msg_num_turbines 5 2)), plant_custom) /\
  @num_turbines_set stub 3 plant_custom_moved
    = on_layout (@set_num_turbines stub 3) plant_custom_moved.
Proof.
  split.
  - apply (proj1 (@num_turbines_set_custom stub plant_custom 5
                    [0; 400] [0; 0] [0; 400] eq_refl eq_refl eq_refl));
      discriminate.
  - apply (proj1 (proj2 (@num_turbines_set_custom stub plant_custom_moved 3
                    [0; 400] [0; 0] [0; 400; 800] eq_refl eq_refl eq_refl)));
      [discriminate|reflexivity].
Defined.

(** C7 as stated fails: a custom layout of two positions, the engine given
    three coordinates by [modify_coordinates]; assigning three turbines,
    which is not the layout's count, raises no [ValueError]: the count goes
    to the layout's [set_num_turbines]. *)
Lemma num_turbines_set_custom_other_count_accepted :
  WindLayout.layout_mode (_layout plant_custom_moved) = "custom" /\
  WindLayout.parameters (_layout plant_custom_moved) = WindCustomParameters [0; 400] [0; 0] /\
  3%Z <> Z.of_nat (length [0; 400]) /\
  snd (@modify_coordinates stub [0; 400; 800] [0; 0; 0] plant_custom) = plant_custom_moved /\
  @num_turbines_set stub 3 plant_custom_moved
    = on_layout (@set_num_turbines stub 3) plant_custom_moved /\
  fst (@num_turbines_set stub 3 plant_custom_moved) = Returns tt.
Proof. repeat split; try reflexivity. discriminate. Qed.

(** ** Engine failures in [modify_powercurve] *)

(** C8, as the code has it: whatever exception the engine's power-curve
    calculation raises inside [modify_powercurve], it is caught and a
    [RuntimeError] is raised in its place.  The class and the message of
    that error are built from the two arguments [rotor_diam] and [rating_kw]
    alone, nothing of the engine's failure enters them.  The engine's
    exception is not discarded, though: the [raise] stands inside the
    [except] block, without [from None], so the [RuntimeError] carries the
    engine's exception as its context.  The state is the one the engine
    left. *)
Theorem modify_powercurve_engine_failure `{Collaborators}
    (w : WindPlant) (rotor_diam rating_kw d : Q) (e : exn) (m' : SystemModel) :
  _system_model w !! k_rotor = Some (VNum d) ->
  calculate_powercurve rating_kw (py_int d) 0 (45 # 100) 60 8 4 25 0 (_system_model w)
    = (Raises e, m') ->
  modify_powercurve rotor_diam rating_kw w =
  (Raises (RaiseDuring RuntimeError
     ("WindPlant.turb_rating could not calculate turbine powercurve with diameter="
      ++ format_number rotor_diam ++ ", rating=" ++ format_number rating_kw
      ++ ". Check diameter or turn off 'recalculate_powercurve'")
     e),
   with_system_model m' w).
Proof.
  intros Hd Hfail. unfold modify_powercurve.
  apply bind_raises. unfold try_except.
  rewrite (bind_returns _ _ _ _ _ (value_get_some _ _ _ Hd)).
  rewrite (bind_returns _ _ w d w); [|reflexivity].
  unfold on_system_model. rewrite Hfail. reflexivity.
Qed.

Lemma modify_powercurve_engine_failure_witness :
  @modify_powercurve stub 40 6000 plant0 =
  (Raises (RaiseDuring RuntimeError
     ("WindPlant.turb_rating could not calculate turbine powercurve with diameter="
      ++ "40" ++ ", rating=" ++ "6000"
      ++ ". Check diameter or turn off 'recalculate_powercurve'")
     (Raise (OtherError "Exception") "calculate_powercurve error: infeasible rating")),
   plant0).
Proof.
  apply (@modify_powercurve_engine_failure stub plant0 40 6000 77
           (Raise (OtherError "Exception")
              "calculate_powercurve error: infeasible rating")
           engine0); reflexivity.
Defined.

(** C8 as stated fails: when the engine refuses a rating of 6000 kW, the
    [RuntimeError] that [modify_powercurve] raises still holds the engine's
    exception, class and message, as its context. *)
Lemma modify_powercurve_engine_exception_kept :
  exists e,
    fst (@modify_powercurve stub 40 6000 plant0) = Raises e /\
    exn_cls e = RuntimeError /\
    exn_context e
    = Some (Raise (OtherError "Exception") "calculate_powercurve error: infeasible rating").
Proof. eexists. repeat split. Qed.

(** Any other exception inside the [try], such as the engine refusing to
    read the rotor diameter, ends the same way. *)
Lemma modify_powercurve_no_rotor_diameter `{Collaborators}
    (w : WindPlant) (rotor_diam rating_kw : Q) :
  _system_model w !! k_rotor = None ->
  modify_powercurve rotor_diam rating_kw w =
  (Raises (RaiseDuring RuntimeError (msg_powercurve rotor_diam rating_kw)
             (Raise (OtherError "Exception") k_rotor)), w).
Proof.
  intros Hd. unfold modify_powercurve. apply bind_raises.
  unfold try_except, bind, value_get, on_system_model, engine_value_get.
  rewrite Hd. simpl. now rewrite with_system_model_id.
Qed.

(** ** Initialisation of the pysam turbine *)

Section Initialize.
Context `{Collaborators}.

Lemma init_rotor_diameter_none (w : WindPlant) :
  WindConfig.rotor_diameter (config w) = None ->
  init_rotor_diameter w = (Returns tt, w).
Proof. intros Hr. unfold init_rotor_diameter, bind, get_state. now rewrite Hr. Qed.

Lemma init_turbine_name_unknown (w : WindPlant) (name : string) :
  WindConfig.turbine_name (config w) = Some name ->
  check_turbine_library_for_turbine name (WindConfig.turbine_group (config w)) = false ->
  init_turbine_name w =
  (Raises (Raise UnboundLocalError (msg_unbound_local "turbine_name")), w).
Proof.
  intros Hn Hc. unfold init_turbine_name, bind, get_state.
  rewrite Hn, Hc. reflexivity.
Qed.

Lemma init_air_density_returns (w : WindPlant) :
  exists w', init_air_density w = (Returns tt, w').
Proof.
  unfold init_air_density, bind, get_state.
  destruct (WindConfig.adjust_air_density_for_elevation (config w)); [|now eexists].
  destruct (SiteInfo.elev (site w)); now eexists.
Qed.

Lemma preserves_init_air_density : preserves (eq k_loss) init_air_density.
Proof.
  unfold init_air_density. apply preserves_bind; [auto with frame|intros w].
  destruct (WindConfig.adjust_air_density_for_elevation (config w)); [|auto with frame].
  destruct (SiteInfo.elev (site w)); [|auto with frame].
  simpl. frame_steps.
Qed.

(** The last statement of the method returns, and changes at most the
    engine's turbine-specific loss. *)
Lemma init_air_density_run (w : WindPlant) :
  exists w',
    init_air_density w = (Returns tt, w') /\
    site w' = site w /\
    forall name, name = k_loss \/ _system_model w' !! name = _system_model w !! name.
Proof.
  destruct (init_air_density_returns w) as [w' E]. exists w'.
  destruct (preserves_init_air_density w) as (Hs & _ & _ & Hv).
  rewrite E in Hs, Hv. simpl in Hs, Hv. repeat split; try assumption.
  intros name. destruct (Hv name) as [<-|E']; auto.
Qed.

Lemma py_ne_true (a b : Q) : ~ (a == b)%Q -> py_ne a b = true.
Proof.
  intros Hne. unfold py_ne. destruct (Qeq_bool a b) eqn:E; [|reflexivity].
  apply Qeq_bool_eq in E. contradiction.
Qed.

(** The hub-height reconciliation when the hub lies outside the measured
    heights: the download is made for the site with the new hub height. *)
Lemma init_resource_hub_height_outside (w : WindPlant) (hub lo hi : Q)
    (fresh : WindResource.t) :
  let resource := SiteInfo.wind_resource (site w) in
  _system_model w !! k_hub = Some (VNum hub) ->
  ~ (hub == WindResource.hub_height_meters resource)%Q ->
  py_min (heights (WindResource.data resource)) = Returns lo ->
  py_max (heights (WindResource.data resource)) = Returns hi ->
  (hub < lo \/ hi < hub)%Q ->
  initialize_wind_resource (site_set_hub_height hub (site w))
    (WindResource.latitude resource) (WindResource.longitude resource)
    (WindResource.year resource) = Returns fresh ->
  init_resource_hub_height w =
  (Returns tt,
   with_system_model (<[k_resource := VData (WindResource.data fresh)]> (_system_model w))
     (with_site (site_set_wind_resource fresh (site_set_hub_height hub (site w))) w)).
Proof.
  intros resource Hhub Hne Hmin Hmax Hout Hfresh.
  unfold init_resource_hub_height.
  rewrite (bind_returns _ _ _ _ _ (value_get_some _ _ _ Hhub)).
  unfold bind, lift, get_state. simpl. fold resource.
  rewrite (py_ne_true _ _ Hne), Hmin.
  assert (Hin : (if Qle_bool lo hub
                 then match py_max (heights (WindResource.data resource)) with
                      | Returns hi' => (Returns (Qle_bool hub hi'), w)
                      | Raises e => (Raises e, w)
                      end
                 else (Returns false, w)) = (Returns false, w)).
  { destruct (Qle_bool lo hub) eqn:E1; [|reflexivity].
    rewrite Hmax. apply Qle_bool_iff in E1.
    destruct Hout as [Hlt|Hlt]; [exfalso; apply (Qlt_not_le _ _ Hlt E1)|].
    destruct (Qle_bool hub hi) eqn:E2; [|reflexivity].
    apply Qle_bool_iff in E2. exfalso. apply (Qlt_not_le _ _ Hlt E2). }
  destruct (Qle_bool lo hub); simpl in *.
  - rewrite Hmax in *. injection Hin as ->. simpl.
    fold resource. now rewrite Hfresh.
  - fold resource. now rewrite Hfresh.
Qed.

(** The same when the hub lies within the measured heights. *)
Lemma init_resource_hub_height_inside (w : WindPlant) (hub lo hi : Q) :
  let resource := SiteInfo.wind_resource (site w) in
  _system_model w !! k_hub = Some (VNum hub) ->
  ~ (hub == WindResource.hub_height_meters resource)%Q ->
  py_min (heights (WindResource.data resource)) = Returns lo ->
  py_max (heights (WindResource.data resource)) = Returns hi ->
  (lo <= hub /\ hub <= hi)%Q ->
  init_resource_hub_height w =
  (Returns tt, with_site (site_update_hub_height hub (site w)) w).
Proof.
  intros resource Hhub Hne Hmin Hmax [Hlo Hhi].
  unfold init_resource_hub_height.
  rewrite (bind_returns _ _ _ _ _ (value_get_some _ _ _ Hhub)).
  unfold bind, lift, get_state. simpl. fold resource.
  rewrite (py_ne_true _ _ Hne), Hmin.
  rewrite (proj2 (Qle_bool_iff _ _) Hlo). simpl. rewrite Hmax.
  now rewrite (proj2 (Qle_bool_iff _ _) Hhi).
Qed.

(** C2, evaluated on the code: with a configured turbine name that the
    library does not know (and no configured rotor diameter, so that no
    earlier statement runs), [initialize_pysam_wind_turbine] does not raise
    the [ValueError] that names the turbine.  The exception is built and
    dropped, the method goes on to read the local [turbine_name], which was
    never bound, and what is raised is an [UnboundLocalError]. *)
Theorem initialize_unknown_turbine_name (w : WindPlant) (name : string) :
  WindConfig.rotor_diameter (config w) = None ->
  WindConfig.turbine_name (config w) = Some name ->
  check_turbine_library_for_turbine name (WindConfig.turbine_group (config w)) = false ->
  initialize_pysam_wind_turbine w
    = (Raises (Raise UnboundLocalError (msg_unbound_local "turbine_name")), w) /\
  fst (initialize_pysam_wind_turbine w)
    <> Raises (Raise ValueError (msg_turbine_not_found name)).
Proof.
  intros Hr Hn Hc.
  assert (E : initialize_pysam_wind_turbine w
              = (Raises (Raise UnboundLocalError (msg_unbound_local "turbine_name")), w)).
  { unfold initialize_pysam_wind_turbine, init_turbine_parameters.
    apply bind_raises.
    rewrite (bind_returns _ _ _ _ _ (init_rotor_diameter_none _ Hr)).
    apply bind_raises. exact (init_turbine_name_unknown w name Hn Hc). }
  split; [exact E|]. rewrite E. simpl. discriminate.
Qed.

(** C6: once the statements before it have returned, leaving the plant
    [w1] with turbine hub height [hub] different from the resource data's
    hub height, and with [lo] and [hi] the least and greatest measured
    height: if [hub] is outside [lo, hi] and the download for the site's
    latitude, longitude and year returns [fresh], the method returns with
    [fresh] as the site's wind resource, [hub] as the site's hub height and
    the data of [fresh] assigned to the engine; if [hub] is within [lo, hi],
    the method returns with the two hub-height fields of the site set to
    [hub], the resource otherwise as it was, and the engine untouched by the
    reconciliation (the statement after it may assign the loss). *)
Theorem initialize_reconciles_hub_height (w w1 : WindPlant) (hub lo hi : Q) :
  let resource := SiteInfo.wind_resource (site w1) in
  init_turbine_parameters w = (Returns tt, w1) ->
  _system_model w1 !! k_hub = Some (VNum hub) ->
  ~ (hub == WindResource.hub_height_meters resource)%Q ->
  py_min (heights (WindResource.data resource)) = Returns lo ->
  py_max (heights (WindResource.data resource)) = Returns hi ->
  ((hub < lo \/ hi < hub)%Q ->
   forall fresh,
     initialize_wind_resource (site_set_hub_height hub (site w1))
       (WindResource.latitude resource) (WindResource.longitude resource)
       (WindResource.year resource) = Returns fresh ->
     exists w',
       initialize_pysam_wind_turbine w = (Returns tt, w') /\
       SiteInfo.wind_resource (site w') = fresh /\
       SiteInfo.hub_height (site w') = hub /\
       _system_model w' !! k_resource = Some (VData (WindResource.data fresh))) /\
  ((lo <= hub /\ hub <= hi)%Q ->
   exists w',
     initialize_pysam_wind_turbine w = (Returns tt, w') /\
     SiteInfo.hub_height (site w') = hub /\
     WindResource.hub_height_meters (SiteInfo.wind_resource (site w')) = hub /\
     site w' = site_update_hub_height hub (site w1) /\
     WindResource.data (SiteInfo.wind_resource (site w')) = WindResource.data resource /\
     forall name,
       name = k_loss \/ _system_model w' !! name = _system_model w1 !! name).
Proof.
  intros resource Hpre Hhub Hne Hmin Hmax. split.
  - intros Hout fresh Hfresh.
    pose proof (init_resource_hub_height_outside w1 hub lo hi fresh
                  Hhub Hne Hmin Hmax Hout Hfresh) as Hrun.
    set (w2 := with_system_model _ _) in Hrun.
    destruct (init_air_density_run w2) as (w' & Hair & Hs & Hv).
    exists w'. split.
    + unfold initialize_pysam_wind_turbine.
      rewrite (bind_returns _ _ _ _ _ Hpre).
      now rewrite (bind_returns _ _ _ _ _ Hrun).
    + rewrite Hs. repeat split.
      destruct (Hv k_resource) as [E|E]; [discriminate E|].
      rewrite E. unfold w2. simpl. apply lookup_insert_eq.
  - intros Hin.
    pose proof (init_resource_hub_height_inside w1 hub lo hi
                  Hhub Hne Hmin Hmax Hin) as Hrun.
    set (w2 := with_site _ _) in Hrun.
    destruct (init_air_density_run w2) as (w' & Hair & Hs & Hv).
    exists w'. split.
    + unfold initialize_pysam_wind_turbine.
      rewrite (bind_returns _ _ _ _ _ Hpre).
      now rewrite (bind_returns _ _ _ _ _ Hrun).
    + rewrite Hs. repeat split. exact Hv.
Qed.

End Initialize.

Lemma initialize_unknown_turbine_name_witness :
  @initialize_pysam_wind_turbine stub plant_unknown_turbine
    = (Raises (Raise UnboundLocalError (msg_unbound_local "turbine_name")),
       plant_unknown_turbine) /\
  fst (@initialize_pysam_wind_turbine stub plant_unknown_turbine)
    <> Raises (Raise ValueError (msg_turbine_not_found "NoSuchTurbine")).
Proof.
  apply (@initialize_unknown_turbine_name stub plant_unknown_turbine "NoSuchTurbine");
    reflexivity.
Defined.

Lemma initialize_reconciles_hub_height_witness :
  (exists w',
     @initialize_pysam_wind_turbine stub plant_low_hub = (Returns tt, w') /\
     SiteInfo.wind_resource (site w') = resource_at 80 [80] /\
     SiteInfo.hub_height (site w') = 80 /\
     _system_model w' !! k_resource
       = Some (VData (WindResource.data (resource_at 80 [80])))) /\
  (exists w',
     @initialize_pysam_wind_turbine stub plant_bracketed_hub = (Returns tt, w') /\
     SiteInfo.hub_height (site w') = 80 /\
     WindResource.hub_height_meters (SiteInfo.wind_resource (site w')) = 80 /\
     site w' = site_update_hub_height 80 (site plant_bracketed_hub) /\
     WindResource.data (SiteInfo.wind_resource (site w'))
       = WindResource.data (resource_at 100 [60; 100]) /\
     forall name,
       name = k_loss \/
       _system_model w' !! name = _system_model plant_bracketed_hub !! name).
Proof.
  split.
  - apply (proj1 (@initialize_reconciles_hub_height stub plant_low_hub plant_low_hub
                    80 100 120 eq_refl eq_refl
                    ltac:(discriminate) eq_refl eq_refl));
      [left; reflexivity|reflexivity].
  - apply (proj2 (@initialize_reconciles_hub_height stub plant_bracketed_hub
                    plant_bracketed_hub 80 60 100 eq_refl eq_refl
                    ltac:(discriminate) eq_refl eq_refl)).
    split; discriminate.
Defined.

(** ** Reading the wake model back *)

(** X1: an index in 0..3 assigned through the [wake_model] setter is read
    back by the getter as the label of that index, and the read changes
    nothing. *)
Theorem wake_model_get_after_set (w : WindPlant) (model_type : Z) :
  (0 <= model_type < 4)%Z ->
  wake_model (snd (wake_model_set model_type w)) =
  (Returns (nth (Z.to_nat model_type) wake_model_labels EmptyString),
   snd (wake_model_set model_type w)).
Proof.
  intros Hr. rewrite (wake_model_set_in_range w model_type Hr). simpl snd.
  set (w1 := with_system_model _ w).
  assert (E : _system_model w1 !! k_wake = Some (VNum (inject_Z model_type))).
  { unfold w1. simpl. apply lookup_insert_eq. }
  unfold wake_model, try_except.
  rewrite (bind_returns _ _ _ _ _ (value_get_some _ _ _ E)).
  assert (Hc : model_type = 0%Z \/ model_type = 1%Z \/ model_type = 2%Z \/ model_type = 3%Z)
    by lia.
  destruct Hc as [-> | [-> | [-> | ->]]]; reflexivity.
Qed.

Lemma wake_model_get_after_set_witness :
  wake_model (snd (wake_model_set 2 plant0)) =
  (Returns "2 [Eddy Viscosity]", snd (wake_model_set 2 plant0)).
Proof. apply (wake_model_get_after_set plant0 2). lia. Defined.

(** X2: whatever the engine holds, the only exception the [wake_model]
    getter lets out is a [NotImplementedError] without message: the
    [ValueError] it raises for an unrecognised stored value, and any failure
    of the engine's read, are caught by its own bare [except] (they remain
    as the context of the [NotImplementedError] only).  The plant is left as
    it was. *)
Theorem wake_model_get_raises_not_implemented (w : WindPlant) (e : exn) :
  fst (wake_model w) = Raises e ->
  (exists caught, e = RaiseDuring NotImplementedError EmptyString caught) /\
  exn_cls e = NotImplementedError /\
  exn_msg e = EmptyString /\
  snd (wake_model w) = w.
Proof.
  unfold wake_model, try_except, bind, value_get, on_system_model, engine_value_get, lift.
  destruct (_system_model w !! k_wake) as [[q|l|d]|]; simpl;
    rewrite ?with_system_model_id;
    try (intros [= <-]; repeat split; eexists; reflexivity).
  destruct (Qeq_bool q 0); [discriminate|].
  destruct (Qeq_bool q 1); [discriminate|].
  destruct (Qeq_bool q 2); [discriminate|].
  destruct (Qeq_bool q 3); [discriminate|].
  simpl. rewrite ?with_system_model_id. intros [= <-].
  repeat split. eexists. reflexivity.
Qed.

Lemma wake_model_get_raises_not_implemented_witness :
  (exists caught,
     RaiseDuring NotImplementedError EmptyString
       (Raise ValueError "wake model type unrecognized")
     = RaiseDuring NotImplementedError EmptyString caught) /\
  exn_cls (RaiseDuring NotImplementedError EmptyString
             (Raise ValueError "wake model type unrecognized")) = NotImplementedError /\
  exn_msg (RaiseDuring NotImplementedError EmptyString
             (Raise ValueError "wake model type unrecognized")) = EmptyString /\
  snd (wake_model plant_wake_unknown) = plant_wake_unknown.
Proof.
  apply (wake_model_get_raises_not_implemented plant_wake_unknown
           (RaiseDuring NotImplementedError EmptyString
              (Raise ValueError "wake model type unrecognized"))).
  reflexivity.
Defined.

(** ** More on rating changes *)

Section RatingRun.

Variable w : WindPlant.
Variable rating_kw : Q.
Variables (curve xs : list Q) (m : Q).
Hypothesis Hcurve : _system_model w !! k_powerout = Some (VArr curve).
Hypothesis Hxs : _system_model w !! k_xcoords = Some (VArr xs).
Hypothesis Hmax : py_max curve = Returns m.
Hypothesis Hm : (0 < m)%Q.
Hypothesis Hrating : (0 < rating_kw)%Q.

Local Abbreviation rated := (rated_plant w rating_kw curve xs m).

Lemma turb_rating_set_run : turb_rating_set rating_kw w = (Returns tt, rated).
Proof using Hcurve Hxs Hmax Hm Hrating.
  rewrite (turb_rating_set_unfold w rating_kw curve m Hcurve Hmax Hm Hrating).
  set (w1 := with_system_model _ w).
  assert (Hxs1 : _system_model w1 !! k_xcoords = Some (VArr xs)).
  { unfold w1. simpl. rewrite lookup_insert_ne; [exact Hxs|discriminate]. }
  rewrite (bind_returns _ _ _ _ _ (value_get_some _ _ _ Hxs1)).
  rewrite (bind_returns _ _ w1 (length xs) w1); reflexivity.
Qed.

Lemma rated_plant_curve :
  _system_model rated !! k_powerout
  = Some (VArr (map (fun i => i * (rating_kw / m)) curve)).
Proof.
  unfold rated_plant. simpl. rewrite lookup_insert_ne by discriminate.
  apply lookup_insert_eq.
Qed.

Lemma rated_plant_xcoords : _system_model rated !! k_xcoords = Some (VArr xs).
Proof using Hxs.
  unfold rated_plant. simpl. rewrite !lookup_insert_ne by discriminate. exact Hxs.
Qed.

Lemma rated_plant_max :
  py_max (map (fun i => i * (rating_kw / m)) curve) = Returns (m * (rating_kw / m)).
Proof using Hmax Hm Hrating.
  apply py_max_scale; [|exact Hmax]. now apply scaling_positive.
Qed.

Lemma rated_max_is_rating : (m * (rating_kw / m) == rating_kw)%Q.
Proof using Hm.
  assert (Hm' : ~ (m == 0)%Q) by (intros E; rewrite E in Hm; discriminate Hm).
  now field.
Qed.

End RatingRun.

(** X3: for a positive rating and a stored power curve with positive
    maximum, the rating read back by the [turb_rating] getter after the
    setter has run is, in exact arithmetic, the rating that was assigned. *)
Theorem turb_rating_get_after_set
    (w : WindPlant) (rating_kw m : Q) (curve xs : list Q) :
  _system_model w !! k_powerout = Some (VArr curve) ->
  _system_model w !! k_xcoords = Some (VArr xs) ->
  py_max curve = Returns m ->
  (0 < m)%Q ->
  (0 < rating_kw)%Q ->
  exists w' r,
    turb_rating_set rating_kw w = (Returns tt, w') /\
    turb_rating w' = (Returns r, w') /\
    (r == rating_kw)%Q.
Proof.
  intros Hcurve Hxs Hmax Hm Hr.
  exists (rated_plant w rating_kw curve xs m), (m * (rating_kw / m)).
  split; [now apply turb_rating_set_run|]. split.
  - apply turb_rating_run with (curve := map (fun i => i * (rating_kw / m)) curve).
    + apply rated_plant_curve.
    + now apply rated_plant_max.
  - now apply rated_max_is_rating.
Qed.

Lemma turb_rating_get_after_set_witness :
  exists w' r,
    turb_rating_set 250 plant0 = (Returns tt, w') /\
    turb_rating w' = (Returns r, w') /\
    (r == 250)%Q.
Proof.
  apply (turb_rating_get_after_set plant0 250 1000 [0; 500; 1000; 1000; 0] [0; 400; 800]);
    reflexivity.
Defined.

(** X4: the rating setter cannot rescale a power curve that has no positive
    scale of its own.  On an empty stored curve it raises the [ValueError] of
    [max], on a curve whose maximum is zero the [ZeroDivisionError] of the
    division; in both cases the plant is left exactly as it was. *)
Theorem turb_rating_set_degenerate_curve (w : WindPlant) (rating_kw : Q) (curve : list Q) :
  _system_model w !! k_powerout = Some (VArr curve) ->
  (curve = [] ->
   turb_rating_set rating_kw w
   = (Raises (Raise ValueError "max() arg is an empty sequence"), w)) /\
  (forall m, py_max curve = Returns m -> (m == 0)%Q ->
   turb_rating_set rating_kw w
   = (Raises (Raise ZeroDivisionError "float division by zero"), w)).
Proof.
  intros Hcurve. split.
  - intros ->. unfold turb_rating_set. apply bind_raises.
    unfold turb_rating. rewrite (bind_returns _ _ _ _ _ (value_get_some _ _ _ Hcurve)).
    reflexivity.
  - intros m Hmax Hz. unfold turb_rating_set.
    rewrite (bind_returns _ _ _ _ _ (turb_rating_run w curve m Hcurve Hmax)).
    apply bind_raises. unfold lift, py_div.
    now rewrite (proj2 (Qeq_bool_iff _ _) Hz).
Qed.

Lemma turb_rating_set_degenerate_curve_witness :
  turb_rating_set 250 plant_no_curve
    = (Raises (Raise ValueError "max() arg is an empty sequence"), plant_no_curve) /\
  turb_rating_set 250 plant_zero_curve
    = (Raises (Raise ZeroDivisionError "float division by zero"), plant_zero_curve).
Proof.
  split.
  - apply (proj1 (turb_rating_set_degenerate_curve plant_no_curve 250 [] eq_refl)).
    reflexivity.
  - apply (proj2 (turb_rating_set_degenerate_curve plant_zero_curve 250 [0; 0; 0] eq_refl)
             0); reflexivity.
Defined.

(** X5: rating changes compose by their last value.  Assigning [r1] and
    then [r2] (both positive, the curve's maximum positive) succeeds twice
    and leaves, in exact arithmetic, what assigning [r2] alone leaves: the
    system capacity is [r2] times the number of turbines and every element
    of the power curve is the original element times [r2 / m]. *)
Theorem turb_rating_set_twice
    (w : WindPlant) (r1 r2 m : Q) (curve xs : list Q) :
  _system_model w !! k_powerout = Some (VArr curve) ->
  _system_model w !! k_xcoords = Some (VArr xs) ->
  py_max curve = Returns m ->
  (0 < m)%Q ->
  (0 < r1)%Q ->
  (0 < r2)%Q ->
  exists w1 w2 c curve2,
    turb_rating_set r1 w = (Returns tt, w1) /\
    turb_rating_set r2 w1 = (Returns tt, w2) /\
    _system_model w2 !! k_capacity = Some (VNum c) /\
    (c == r2 * Q_of_nat (length xs))%Q /\
    _system_model w2 !! k_powerout = Some (VArr curve2) /\
    length curve2 = length curve /\
    forall i x, curve !! i = Some x ->
      exists y, curve2 !! i = Some y /\ (y == x * (r2 / m))%Q.
Proof.
  intros Hcurve Hxs Hmax Hm Hr1 Hr2.
  set (w1 := rated_plant w r1 curve xs m).
  set (curve1 := map (fun i => i * (r1 / m)) curve).
  set (m1 := m * (r1 / m)).
  assert (Hc1 : _system_model w1 !! k_powerout = Some (VArr curve1))
    by apply rated_plant_curve.
  assert (Hx1 : _system_model w1 !! k_xcoords = Some (VArr xs))
    by now apply rated_plant_xcoords.
  assert (Hmax1 : py_max curve1 = Returns m1) by now apply rated_plant_max.
  assert (Hm1e : (m1 == r1)%Q) by now apply rated_max_is_rating.
  assert (Hm1 : (0 < m1)%Q) by now rewrite Hm1e.
  exists w1, (rated_plant w1 r2 curve1 xs m1),
    (m1 * (r2 / m1) * Q_of_nat (length xs)), (map (fun i => i * (r2 / m1)) curve1).
  split; [now apply turb_rating_set_run|].
  split; [now apply turb_rating_set_run|].
  split; [unfold rated_plant; simpl; apply lookup_insert_eq|].
  split; [now apply scale_to_rating|].
  split; [apply rated_plant_curve|].
  split; [unfold curve1; now rewrite !length_map|].
  intros i x Hi. exists (x * (r1 / m) * (r2 / m1)). split.
  - apply lookup_scaled. unfold curve1. now apply lookup_scaled.
  - unfold m1.
    assert (Hm' : ~ (m == 0)%Q) by (intros E; rewrite E in Hm; discriminate Hm).
    assert (Hr' : ~ (r1 == 0)%Q) by (intros E; rewrite E in Hr1; discriminate Hr1).
    field. repeat split; assumption.
Qed.

Lemma turb_rating_set_twice_witness :
  exists w1 w2 c curve2,
    turb_rating_set 250 plant0 = (Returns tt, w1) /\
    turb_rating_set 2000 w1 = (Returns tt, w2) /\
    _system_model w2 !! k_capacity = Some (VNum c) /\
    (c == 2000 * Q_of_nat (length [0; 400; 800]))%Q /\
    _system_model w2 !! k_powerout = Some (VArr curve2) /\
    length curve2 = length [0; 500; 1000; 1000; 0] /\
    forall i x, [0; 500; 1000; 1000; 0] !! i = Some x ->
      exists y, curve2 !! i = Some y /\ (y == x * (2000 / 1000))%Q.
Proof.
  apply (turb_rating_set_twice plant0 250 2000 1000 [0; 500; 1000; 1000; 0] [0; 400; 800]);
    reflexivity.
Defined.

(** ** Sizing by rating and by turbine count *)

Lemma round_half_even_near (q : Q) (z : Z) :
  (inject_Z z - (1 # 2) < q)%Q -> (q < inject_Z z + (1 # 2))%Q ->
  round_half_even q = z.
Proof.
  intros Hlo Hhi. unfold round_half_even.
  pose proof (Qfloor_le q) as Hf1. pose proof (Qlt_floor q) as Hf2.
  set (f := Qfloor q) in *.
  assert (Hle : (f <= z)%Z).
  { assert (Hlt : (inject_Z f < inject_Z z + (1 # 2))%Q) by (eapply Qle_lt_trans; eassumption).
    unfold Qlt, Qplus, inject_Z in Hlt. simpl in Hlt. lia. }
  assert (Hge : (z - 1 <= f)%Z).
  { assert (Hlt : (inject_Z z - (1 # 2) < inject_Z (f + 1))%Q) by (eapply Qlt_trans; eassumption).
    unfold Qlt, Qminus, Qplus, Qopp, inject_Z in Hlt. simpl in Hlt. lia. }
  assert (Hc : f = z \/ f = (z - 1)%Z) by lia.
  destruct Hc as [-> | ->].
  - assert (Hlt : (q - inject_Z z < 1 # 2)%Q) by lra.
    apply Qlt_alt in Hlt.
    now replace (Qcompare (q - inject_Z z) (1 # 2)) with Lt by (symmetry; exact Hlt).
  - assert (Hz : (inject_Z (z - 1) == inject_Z z - 1)%Q).
    { unfold Z.sub. rewrite inject_Z_plus. reflexivity. }
    assert (Hgt : (1 # 2 < q - inject_Z (z - 1))%Q) by (rewrite Hz; lra).
    apply Qgt_alt in Hgt.
    replace (Qcompare (q - inject_Z (z - 1)) (1 # 2)) with Gt by (symmetry; exact Hgt).
    lia.
Qed.

Lemma Q_of_nat_positive (n : nat) : (0 < n)%nat -> (0 < Q_of_nat n)%Q.
Proof. intros Hn. unfold Q_of_nat, Qlt. simpl. lia. Qed.

Section SizingByRating.

Variable rating_range : Z * Z.
Variable w : WindPlant.
Variable wind_size_kw : Q.
Variable xs : list Q.
Hypothesis Hxs : _system_model w !! k_xcoords = Some (VArr xs).
Hypothesis Hn : (0 < length xs)%nat.

Let per_turbine := wind_size_kw / Q_of_nat (length xs).

(** The method up to the range check. *)
Lemma system_capacity_by_rating_unfold :
  system_capacity_by_rating rating_range wind_size_kw w =
  (if Qle_bool (inject_Z (fst rating_range)) per_turbine
      && Qle_bool per_turbine (inject_Z (snd rating_range))
   then turb_rating_set per_turbine
   else raise (Raise RuntimeError msg_capacity)) w.
Proof using Hxs Hn.
  unfold system_capacity_by_rating.
  rewrite (bind_returns _ _ _ _ _ (num_turbines_run w xs Hxs)).
  rewrite (bind_returns _ _ w per_turbine w); [reflexivity|].
  unfold lift. rewrite py_div_nonzero; [reflexivity|].
  intros E. pose proof (Q_of_nat_positive _ Hn) as Hp. rewrite E in Hp. discriminate Hp.
Qed.

End SizingByRating.

(** X6: [system_capacity_by_rating] meets its target exactly.  With at least
    one turbine, a stored power curve of positive maximum, a positive target
    and a per-turbine rating (target over turbine count) inside the plant's
    rating range, the call succeeds; afterwards the stored system capacity
    equals the target and the turbine rating equals the target divided by
    the number of turbines, in exact arithmetic. *)
Theorem system_capacity_by_rating_meets_target
    (rating_range : Z * Z) (w : WindPlant) (wind_size_kw m : Q) (curve xs : list Q) :
  _system_model w !! k_powerout = Some (VArr curve) ->
  _system_model w !! k_xcoords = Some (VArr xs) ->
  py_max curve = Returns m ->
  (0 < m)%Q ->
  (0 < length xs)%nat ->
  (0 < wind_size_kw)%Q ->
  (inject_Z (fst rating_range) <= wind_size_kw / Q_of_nat (length xs))%Q ->
  (wind_size_kw / Q_of_nat (length xs) <= inject_Z (snd rating_range))%Q ->
  exists w' c r,
    system_capacity_by_rating rating_range wind_size_kw w = (Returns tt, w') /\
    system_capacity_kw w' = (Returns (VNum c), w') /\
    (c == wind_size_kw)%Q /\
    turb_rating w' = (Returns r, w') /\
    (r == wind_size_kw / Q_of_nat (length xs))%Q /\
    num_turbines w' = (Returns (length xs), w').
Proof.
  intros Hcurve Hxs Hmax Hm Hn Hsize Hlo Hhi.
  pose proof (Q_of_nat_positive _ Hn) as Hp.
  set (rating := wind_size_kw / Q_of_nat (length xs)) in *.
  assert (Hr : (0 < rating)%Q).
  { unfold rating, Qdiv. apply Qmult_lt_0_compat; [exact Hsize|].
    now apply Qinv_lt_0_compat. }
  rewrite (system_capacity_by_rating_unfold rating_range w wind_size_kw xs Hxs Hn).
  fold rating.
  rewrite (proj2 (Qle_bool_iff _ _) Hlo), (proj2 (Qle_bool_iff _ _) Hhi). simpl.
  exists (rated_plant w rating curve xs m),
    (m * (rating / m) * Q_of_nat (length xs)), (m * (rating / m)).
  split; [now apply turb_rating_set_run|].
  split; [apply value_get_some; unfold rated_plant; simpl; apply lookup_insert_eq|].
  split.
  { rewrite scale_to_rating by exact Hm. unfold rating. field.
    intros E. rewrite E in Hp. discriminate Hp. }
  split.
  { apply turb_rating_run with (curve := map (fun i => i * (rating / m)) curve).
    - apply rated_plant_curve.
    - now apply rated_plant_max. }
  split; [now apply rated_max_is_rating|].
  apply num_turbines_run. now apply rated_plant_xcoords.
Qed.

Lemma system_capacity_by_rating_meets_target_witness :
  exists w' c r,
    system_capacity_by_rating (1000, 3000)%Z 6000 plant0 = (Returns tt, w') /\
    system_capacity_kw w' = (Returns (VNum c), w') /\
    (c == 6000)%Q /\
    turb_rating w' = (Returns r, w') /\
    (r == 6000 / Q_of_nat (length [0; 400; 800]))%Q /\
    num_turbines w' = (Returns (length [0; 400; 800]), w').
Proof.
  apply (system_capacity_by_rating_meets_target (1000, 3000)%Z plant0 6000 1000
           [0; 500; 1000; 1000; 0] [0; 400; 800]);
    try reflexivity; try discriminate; simpl; lia.
Defined.

(** X7: when the per-turbine rating that the target asks for lies outside
    the plant's rating range, [system_capacity_by_rating] raises its
    [RuntimeError] and leaves the plant exactly as it was: no power curve is
    rescaled and no capacity stored. *)
Theorem system_capacity_by_rating_out_of_range
    (rating_range : Z * Z) (w : WindPlant) (wind_size_kw : Q) (xs : list Q) :
  _system_model w !! k_xcoords = Some (VArr xs) ->
  (0 < length xs)%nat ->
  (wind_size_kw / Q_of_nat (length xs) < inject_Z (fst rating_range) \/
   inject_Z (snd rating_range) < wind_size_kw / Q_of_nat (length xs))%Q ->
  system_capacity_by_rating rating_range wind_size_kw w
  = (Raises (Raise RuntimeError msg_capacity), w).
Proof.
  intros Hxs Hn Hout.
  rewrite (system_capacity_by_rating_unfold rating_range w wind_size_kw xs Hxs Hn).
  set (rating := wind_size_kw / Q_of_nat (length xs)) in *.
  replace (Qle_bool (inject_Z (fst rating_range)) rating
           && Qle_bool rating (inject_Z (snd rating_range))) with false; [reflexivity|].
  symmetry. apply andb_false_iff.
  destruct Hout as [Hlt|Hlt]; [left|right];
    (destruct (Qle_bool _ _) eqn:E; [|reflexivity]);
    apply Qle_bool_iff in E; exfalso; apply (Qlt_not_le _ _ Hlt E).
Qed.

Lemma system_capacity_by_rating_out_of_range_witness :
  system_capacity_by_rating (1000, 3000)%Z 12000 plant0
  = (Raises (Raise RuntimeError msg_capacity), plant0).
Proof.
  apply (system_capacity_by_rating_out_of_range (1000, 3000)%Z plant0 12000 [0; 400; 800]);
    [reflexivity|simpl; lia|right; reflexivity].
Defined.

(** X8: on a plant without turbines (an empty x-coordinate array)
    [system_capacity_by_rating] cannot form a per-turbine rating: it raises
    the [ZeroDivisionError] of the division, whatever the target and the
    rating range, and leaves the plant as it was. *)
Theorem system_capacity_by_rating_no_turbines
    (rating_range : Z * Z) (w : WindPlant) (wind_size_kw : Q) :
  _system_model w !! k_xcoords = Some (VArr []) ->
  system_capacity_by_rating rating_range wind_size_kw w
  = (Raises (Raise ZeroDivisionError "float division by zero"), w).
Proof.
  intros Hxs. unfold system_capacity_by_rating.
  rewrite (bind_returns _ _ _ _ _ (num_turbines_run w [] Hxs)).
  now apply bind_raises.
Qed.

Lemma system_capacity_by_rating_no_turbines_witness :
  system_capacity_by_rating (1000, 3000)%Z 6000 plant_no_turbines
  = (Raises (Raise ZeroDivisionError "float division by zero"), plant_no_turbines).
Proof.
  apply (system_capacity_by_rating_no_turbines (1000, 3000)%Z plant_no_turbines 6000).
  reflexivity.
Defined.

Section SizingByCount.
Context `{Collaborators}.

Variable w : WindPlant.
Variable wind_size_kw : Q.
Variables (curve xs : list Q) (r : Q).
Hypothesis Hcurve : _system_model w !! k_powerout = Some (VArr curve).
Hypothesis Hxs : _system_model w !! k_xcoords = Some (VArr xs).
Hypothesis Hmax : py_max curve = Returns r.
Hypothesis Hr : ~ (r == 0)%Q.

(** The method up to the comparison of the counts. *)
Lemma system_capacity_by_num_turbines_unfold :
  system_capacity_by_num_turbines wind_size_kw w =
  (if negb (Z.of_nat (length xs) =? round_half_even (wind_size_kw / r))%Z
   then num_turbines_set (round_half_even (wind_size_kw / r))
   else ret tt) w.
Proof using Hcurve Hxs Hmax Hr.
  unfold system_capacity_by_num_turbines.
  rewrite (bind_returns _ _ _ _ _ (turb_rating_run w curve r Hcurve Hmax)).
  rewrite (bind_returns _ _ w (wind_size_kw / r) w);
    [|unfold lift; now rewrite py_div_nonzero].
  now rewrite (bind_returns _ _ _ _ _ (num_turbines_run w xs Hxs)).
Qed.

End SizingByCount.

(** X9: assigning [system_capacity_kw] (that is,
    [system_capacity_by_num_turbines]) a capacity for which the count the
    method rounds to is the current turbine count is a no-op: the layout is
    not asked for anything and the plant is exactly as before.  In exact
    arithmetic, the quotient of capacity and rating taken exactly, that is
    the case for every capacity strictly within half a turbine rating of
    what the current turbines give, the capacity [rating * count] itself
    included; with floating-point numbers the quotient can be rounded onto
    a tie, and then the count is the one the program's own rounding gives. *)
Theorem system_capacity_kw_set_same_count `{Collaborators}
    (w : WindPlant) (size_kw r : Q) (curve xs : list Q) :
  _system_model w !! k_powerout = Some (VArr curve) ->
  _system_model w !! k_xcoords = Some (VArr xs) ->
  py_max curve = Returns r ->
  ~ (r == 0)%Q ->
  (round_half_even (size_kw / r) = Z.of_nat (length xs) ->
   system_capacity_kw_set size_kw w = (Returns tt, w)) /\
  ((Q_of_nat (length xs) - (1 # 2) < size_kw / r)%Q ->
   (size_kw / r < Q_of_nat (length xs) + (1 # 2))%Q ->
   round_half_even (size_kw / r) = Z.of_nat (length xs) /\
   system_capacity_kw_set size_kw w = (Returns tt, w)).
Proof.
  intros Hcurve Hxs Hmax Hr.
  assert (Hsame : round_half_even (size_kw / r) = Z.of_nat (length xs) ->
                  system_capacity_kw_set size_kw w = (Returns tt, w)).
  { intros Hround. unfold system_capacity_kw_set.
    rewrite (system_capacity_by_num_turbines_unfold w size_kw curve xs r
               Hcurve Hxs Hmax Hr).
    rewrite Hround. now rewrite Z.eqb_refl. }
  split; [exact Hsame|].
  intros Hlo Hhi.
  pose proof (round_half_even_near _ (Z.of_nat (length xs)) Hlo Hhi) as Hround.
  split; [exact Hround|now apply Hsame].
Qed.

Lemma system_capacity_kw_set_same_count_witness :
  @system_capacity_kw_set stub 3200 plant0 = (Returns tt, plant0) /\
  round_half_even (3200 / 1000) = Z.of_nat (length [0; 400; 800]) /\
  @system_capacity_kw_set stub (1000 * 3) plant0 = (Returns tt, plant0).
Proof.
  split; [|split].
  - apply (proj1 (@system_capacity_kw_set_same_count stub plant0 3200 1000
                    [0; 500; 1000; 1000; 0] [0; 400; 800]
                    eq_refl eq_refl eq_refl ltac:(discriminate))).
    reflexivity.
  - apply (proj2 (@system_capacity_kw_set_same_count stub plant0 3200 1000
                    [0; 500; 1000; 1000; 0] [0; 400; 800]
                    eq_refl eq_refl eq_refl ltac:(discriminate)));
      reflexivity.
  - apply (proj2 (@system_capacity_kw_set_same_count stub plant0 (1000 * 3) 1000
                    [0; 500; 1000; 1000; 0] [0; 400; 800]
                    eq_refl eq_refl eq_refl ltac:(discriminate)));
      reflexivity.
Defined.

(** X10: under a custom layout the [system_capacity_kw] setter cannot change
    the number of turbines by itself.  When the capacity asked for rounds to
    a count that is neither the engine's current count nor the length of the
    layout's x-coordinate list, the assignment ends in the [ValueError] of
    the [num_turbines] setter, naming both counts, and the plant is left as
    it was. *)
Theorem system_capacity_kw_set_custom_refused `{Collaborators}
    (w : WindPlant) (size_kw r : Q) (curve xs layout_x layout_y : list Q) :
  WindLayout.layout_mode (_layout w) = "custom" ->
  WindLayout.parameters (_layout w) = WindCustomParameters layout_x layout_y ->
  _system_model w !! k_powerout = Some (VArr curve) ->
  _system_model w !! k_xcoords = Some (VArr xs) ->
  py_max curve = Returns r ->
  ~ (r == 0)%Q ->
  round_half_even (size_kw / r) <> Z.of_nat (length xs) ->
  round_half_even (size_kw / r) <> Z.of_nat (length layout_x) ->
  system_capacity_kw_set size_kw w
  = (Raises (Raise ValueError
       (msg_num_turbines (round_half_even (size_kw / r)) (length xs))), w).
Proof.
  intros Hmode Hparams Hcurve Hxs Hmax Hr Hn Hl. unfold system_capacity_kw_set.
  rewrite (system_capacity_by_num_turbines_unfold w size_kw curve xs r Hcurve Hxs Hmax Hr).
  replace (Z.of_nat (length xs) =? round_half_even (size_kw / r))%Z with false
    by (symmetry; apply Z.eqb_neq; congruence).
  simpl. now apply num_turbines_set_mismatch with (layout_x := layout_x) (layout_y := layout_y).
Qed.

Lemma system_capacity_kw_set_custom_refused_witness :
  @system_capacity_kw_set stub 5400 plant_custom
  = (Raises (Raise ValueError (msg_num_turbines 5 2)), plant_custom).
Proof.
  apply (@system_capacity_kw_set_custom_refused stub plant_custom 5400 1000
           [0; 500; 1000; 1000; 0] [0; 400] [0; 400] [0; 0]);
    try reflexivity; discriminate.
Defined.

(** ** What [modify_powercurve] and [modify_coordinates] leave alone *)

Lemma preserves_on_system_model {A} (c : Py SystemModel A) :
  preserves (fun _ => True) (on_system_model c).
Proof.
  intros w. unfold on_system_model. destruct (c (_system_model w)) as [o m].
  simpl. auto.
Qed.

Lemma preserves_num_turbines writes : preserves writes num_turbines.
Proof. unfold num_turbines. frame_steps. Qed.

Lemma preserves_modify_powercurve `{Collaborators} (rotor_diam rating_kw : Q) :
  preserves (fun _ => True) (modify_powercurve rotor_diam rating_kw).
Proof.
  unfold modify_powercurve, system_capacity_kw.
  apply preserves_bind; [|intros _; frame_steps; apply preserves_num_turbines].
  apply preserves_try_except; [|auto with frame].
  frame_steps. apply preserves_on_system_model.
Qed.

(** X11: when the engine's power-curve calculation returns,
    [modify_powercurve] returns; the engine then holds the rotor diameter
    given as argument and, as system capacity, the rating given as argument
    times the number of turbines. *)
Theorem modify_powercurve_success `{Collaborators}
    (w : WindPlant) (rotor_diam rating_kw d : Q) (m' : SystemModel) (xs : list Q) :
  _system_model w !! k_rotor = Some (VNum d) ->
  calculate_powercurve rating_kw (py_int d) 0 (45 # 100) 60 8 4 25 0 (_system_model w)
    = (Returns tt, m') ->
  m' !! k_xcoords = Some (VArr xs) ->
  exists w',
    modify_powercurve rotor_diam rating_kw w = (Returns tt, w') /\
    rotor_diameter w' = (Returns (VNum rotor_diam), w') /\
    system_capacity_kw w' = (Returns (VNum (rating_kw * Q_of_nat (length xs))), w') /\
    num_turbines w' = (Returns (length xs), w').
Proof.
  intros Hd Hcalc Hxs. unfold modify_powercurve.
  set (w1 := with_system_model m' w).
  assert (Htry : try_except
            (v <- value_get k_rotor ;;
             d0 <- lift (as_number v) ;;
             on_system_model
               (calculate_powercurve rating_kw (py_int d0) 0 (45 # 100) 60 8 4 25 0))
            (raise (Raise RuntimeError (msg_powercurve rotor_diam rating_kw))) w
          = (Returns tt, w1)).
  { unfold try_except.
    rewrite (bind_returns _ _ _ _ _ (value_get_some _ _ _ Hd)).
    rewrite (bind_returns _ _ w d w); [|reflexivity].
    unfold on_system_model. now rewrite Hcalc. }
  rewrite (bind_returns _ _ _ _ _ Htry).
  rewrite (bind_returns _ _ _ _ _ (value_set_run _ _ _)).
  set (w2 := with_system_model _ w1).
  assert (Hxs2 : _system_model w2 !! k_xcoords = Some (VArr xs)).
  { unfold w2, w1. simpl. rewrite lookup_insert_ne by discriminate. exact Hxs. }
  rewrite (bind_returns _ _ _ _ _ (num_turbines_run w2 xs Hxs2)).
  rewrite (bind_returns _ _ _ _ _ (value_set_run _ _ _)).
  set (w3 := with_system_model _ w2).
  assert (Hcap : _system_model w3 !! k_capacity
                 = Some (VNum (rating_kw * Q_of_nat (length xs)))).
  { unfold w3. simpl. apply lookup_insert_eq. }
  unfold system_capacity_kw at 1.
  rewrite (bind_returns _ _ _ _ _ (value_get_some _ _ _ Hcap)).
  exists w3. split; [reflexivity|]. split; [|split].
  - apply value_get_some. unfold w3, w2. simpl.
    rewrite lookup_insert_ne by discriminate. apply lookup_insert_eq.
  - now apply value_get_some.
  - apply num_turbines_run. unfold w3. simpl.
    rewrite lookup_insert_ne by discriminate. exact Hxs2.
Qed.

Lemma modify_powercurve_success_witness :
  exists w',
    @modify_powercurve stub 40 2000 plant0 = (Returns tt, w') /\
    rotor_diameter w' = (Returns (VNum 40), w') /\
    system_capacity_kw w' = (Returns (VNum (2000 * Q_of_nat (length [0; 400; 800]))), w') /\
    num_turbines w' = (Returns (length [0; 400; 800]), w').
Proof.
  apply (@modify_powercurve_success stub plant0 40 2000 77 engine0 [0; 400; 800]);
    reflexivity.
Defined.

(** X12: [modify_powercurve] acts on the engine only.  Whatever the engine
    does and whether the call returns or raises, the layout object, the site
    and the configuration are as before: the new rotor diameter is stored
    without the turbine count being re-applied to the layout, unlike in the
    [rotor_diameter] setter. *)
Theorem modify_powercurve_keeps_layout `{Collaborators}
    (w : WindPlant) (rotor_diam rating_kw : Q) :
  _layout (snd (modify_powercurve rotor_diam rating_kw w)) = _layout w /\
  site (snd (modify_powercurve rotor_diam rating_kw w)) = site w /\
  config (snd (modify_powercurve rotor_diam rating_kw w)) = config w.
Proof.
  destruct (preserves_modify_powercurve rotor_diam rating_kw w) as (Hs & Hg & Hl & _).
  auto.
Qed.

Lemma preserves_modify_coordinates_pysam (xcoords ycoords : list Q) :
  preserves coordinates_writes
    (value_set k_xcoords (VArr xcoords) ;;
     value_set k_ycoords (VArr ycoords) ;;
     r <- turb_rating ;;
     value_set k_capacity (VNum (r * Q_of_nat (length xcoords))) ;;
     _ <- system_capacity_kw ;;
     ret tt).
Proof.
  unfold system_capacity_kw, coordinates_writes.
  frame_steps; try apply preserves_turb_rating; auto.
Qed.

(** X13: for a model other than Floris, [modify_coordinates] changes at most
    the engine's two coordinate arrays and its system capacity, whether it
    returns or raises.  Every other engine variable, the site and the
    configuration are as before, and so is the layout object: its
    parameters keep the coordinates they had. *)
Theorem modify_coordinates_frame `{Collaborators}
    (w : WindPlant) (xcoords ycoords : list Q) :
  WindConfig.model_name (config w) <> "floris" ->
  _layout (snd (modify_coordinates xcoords ycoords w)) = _layout w /\
  site (snd (modify_coordinates xcoords ycoords w)) = site w /\
  config (snd (modify_coordinates xcoords ycoords w)) = config w /\
  forall name,
    name = k_xcoords \/ name = k_ycoords \/ name = k_capacity \/
    _system_model (snd (modify_coordinates xcoords ycoords w)) !! name
    = _system_model w !! name.
Proof.
  intros Hmodel.
  destruct (Nat.eq_dec (length xcoords) (length ycoords)) as [Hlen|Hlen].
  - rewrite modify_coordinates_pysam; [|exact Hlen|now apply String.eqb_neq].
    destruct (preserves_modify_coordinates_pysam xcoords ycoords w) as (Hs & Hg & Hl & Hv).
    repeat split; try assumption.
    intros name. destruct (Hv name) as [[E|[E|E]]|E]; auto.
  - unfold modify_coordinates. rewrite (lengths_differ _ _ Hlen). simpl.
    repeat split. intros name. do 3 right. reflexivity.
Qed.

Lemma modify_coordinates_frame_witness :
  _layout (snd (@modify_coordinates stub [0; 400; 800] [0; 0; 0] plant_custom))
    = _layout plant_custom /\
  site (snd (@modify_coordinates stub [0; 400; 800] [0; 0; 0] plant_custom))
    = site plant_custom /\
  config (snd (@modify_coordinates stub [0; 400; 800] [0; 0; 0] plant_custom))
    = config plant_custom /\
  forall name,
    name = k_xcoords \/ name = k_ycoords \/ name = k_capacity \/
    _system_model (snd (@modify_coordinates stub [0; 400; 800] [0; 0; 0] plant_custom))
      !! name
    = _system_model plant_custom !! name.
Proof.
  apply (@modify_coordinates_frame stub plant_custom [0; 400; 800] [0; 0; 0]).
  discriminate.
Defined.

(** ** The rotor-diameter setter *)

(** X14: under a custom layout the [rotor_diameter] setter is never stopped
    by the turbine-count check: the count it re-applies is the engine's own,
    so after storing the diameter it always reaches the layout's
    [set_num_turbines] with that count (twice when the count is also the
    length of the layout's x-coordinate list, once otherwise). *)
Theorem rotor_diameter_set_custom `{Collaborators}
    (w : WindPlant) (d : Q) (layout_x layout_y xs : list Q) :
  WindLayout.layout_mode (_layout w) = "custom" ->
  WindLayout.parameters (_layout w) = WindCustomParameters layout_x layout_y ->
  _system_model w !! k_xcoords = Some (VArr xs) ->
  let w1 := with_system_model (<[k_rotor := VNum d]> (_system_model w)) w in
  let n := Z.of_nat (length xs) in
  rotor_diameter_set d w =
  (if Nat.eqb (length xs) (length layout_x)
   then (on_layout (set_num_turbines n) ;; on_layout (set_num_turbines n)) w1
   else on_layout (set_num_turbines n) w1).
Proof.
  intros Hmode Hparams Hxs w1 n. unfold rotor_diameter_set.
  rewrite (bind_returns _ _ _ _ _ (value_set_run _ _ _)). fold w1.
  assert (Hxs1 : _system_model w1 !! k_xcoords = Some (VArr xs)).
  { unfold w1. simpl. rewrite lookup_insert_ne by discriminate. exact Hxs. }
  rewrite (bind_returns _ _ _ _ _ (num_turbines_run w1 xs Hxs1)). fold n.
  destruct (Nat.eqb (length xs) (length layout_x)) eqn:E.
  - apply Nat.eqb_eq in E.
    apply num_turbines_set_matches_layout with (layout_x := layout_x) (layout_y := layout_y);
      [exact Hmode|exact Hparams|]. unfold n. now rewrite E.
  - apply Nat.eqb_neq in E.
    apply num_turbines_set_matches_model
      with (layout_x := layout_x) (layout_y := layout_y) (xs := xs);
      [exact Hmode|exact Hparams|exact Hxs1| |reflexivity].
    unfold n. lia.
Qed.

Lemma rotor_diameter_set_custom_witness :
  @rotor_diameter_set stub 90 plant_custom_moved =
  on_layout (@set_num_turbines stub 3)
    (with_system_model (<[k_rotor := VNum 90]> (_system_model plant_custom_moved))
       plant_custom_moved).
Proof.
  apply (@rotor_diameter_set_custom stub plant_custom_moved 90 [0; 400] [0; 0] [0; 400; 800]);
    reflexivity.
Defined.

(** ** More on the initialisation of the pysam turbine *)

Section InitializeMore.
Context `{Collaborators}.

Lemma init_turbine_name_none (w : WindPlant) :
  WindConfig.turbine_name (config w) = None ->
  init_turbine_name w = (Returns tt, w).
Proof. intros Hn. unfold init_turbine_name, bind, get_state. now rewrite Hn. Qed.

Lemma py_ne_false (a b : Q) : (a == b)%Q -> py_ne a b = false.
Proof. intros E. unfold py_ne. now rewrite (proj2 (Qeq_bool_iff _ _) E). Qed.

Lemma init_check_hub_height_agrees (w : WindPlant) (hub : Q) :
  _system_model w !! k_hub = Some (VNum hub) ->
  (forall h, WindConfig.hub_height (config w) = Some h -> (h == hub)%Q) ->
  init_check_hub_height w = (Returns tt, w).
Proof.
  intros Hhub Hcfg. unfold init_check_hub_height, bind, get_state.
  destruct (WindConfig.hub_height (config w)) as [h|]; [|reflexivity].
  rewrite (value_get_some _ _ _ Hhub). unfold lift. simpl.
  now rewrite (py_ne_false _ _ (Hcfg h eq_refl)).
Qed.

Lemma init_resource_hub_height_agrees (w : WindPlant) (hub : Q) :
  _system_model w !! k_hub = Some (VNum hub) ->
  (hub == WindResource.hub_height_meters (SiteInfo.wind_resource (site w)))%Q ->
  init_resource_hub_height w = (Returns tt, w).
Proof.
  intros Hhub Heq. unfold init_resource_hub_height.
  rewrite (bind_returns _ _ _ _ _ (value_get_some _ _ _ Hhub)).
  unfold bind, lift, get_state. simpl. now rewrite (py_ne_false _ _ Heq).
Qed.

(** With no rotor diameter and no turbine name configured, and a configured
    hub height (if any) that agrees with the engine's, the statements before
    the reconciliation change nothing. *)
Lemma init_turbine_parameters_nothing (w : WindPlant) (hub : Q) :
  WindConfig.rotor_diameter (config w) = None ->
  WindConfig.turbine_name (config w) = None ->
  _system_model w !! k_hub = Some (VNum hub) ->
  (forall h, WindConfig.hub_height (config w) = Some h -> (h == hub)%Q) ->
  init_turbine_parameters w = (Returns tt, w).
Proof.
  intros Hr Hn Hhub Hcfg. unfold init_turbine_parameters.
  rewrite (bind_returns _ _ _ _ _ (init_rotor_diameter_none w Hr)).
  rewrite (bind_returns _ _ _ _ _ (init_turbine_name_none w Hn)).
  now apply init_check_hub_height_agrees with (hub := hub).
Qed.

Lemma initialize_consistent_run (w : WindPlant) (hub : Q) :
  WindConfig.rotor_diameter (config w) = None ->
  WindConfig.turbine_name (config w) = None ->
  _system_model w !! k_hub = Some (VNum hub) ->
  (forall h, WindConfig.hub_height (config w) = Some h -> (h == hub)%Q) ->
  (hub == WindResource.hub_height_meters (SiteInfo.wind_resource (site w)))%Q ->
  initialize_pysam_wind_turbine w = init_air_density w.
Proof.
  intros Hr Hn Hhub Hcfg Heq. unfold initialize_pysam_wind_turbine.
  rewrite (bind_returns _ _ _ _ _ (init_turbine_parameters_nothing w hub Hr Hn Hhub Hcfg)).
  now rewrite (bind_returns _ _ _ _ _ (init_resource_hub_height_agrees w hub Hhub Heq)).
Qed.

(** X15: a configured hub height that differs from the engine's turbine hub
    height stops the initialisation with the [ValueError] that names both
    values (no rotor diameter or turbine name being configured, so that
    nothing runs before the check); the plant is left as it was. *)
Theorem initialize_hub_height_mismatch (w : WindPlant) (h hub : Q) :
  WindConfig.rotor_diameter (config w) = None ->
  WindConfig.turbine_name (config w) = None ->
  WindConfig.hub_height (config w) = Some h ->
  _system_model w !! k_hub = Some (VNum hub) ->
  ~ (h == hub)%Q ->
  initialize_pysam_wind_turbine w
  = (Raises (Raise ValueError
       ("Input hub-height (" ++ format_number h ++ ") does not match hub-height "
        ++ "for turbine (" ++ format_number hub ++ "). "
        ++ "Please correct the value for hub_height in the hopp config input "
        ++ "to " ++ format_number hub ++ ".")), w).
Proof.
  intros Hr Hn Hcfg Hhub Hne.
  unfold initialize_pysam_wind_turbine, init_turbine_parameters.
  apply bind_raises.
  rewrite (bind_returns _ _ _ _ _ (init_rotor_diameter_none w Hr)).
  rewrite (bind_returns _ _ _ _ _ (init_turbine_name_none w Hn)).
  unfold init_check_hub_height, bind, get_state. rewrite Hcfg.
  rewrite (value_get_some _ _ _ Hhub). unfold lift. simpl.
  now rewrite (py_ne_true _ _ Hne).
Qed.

(** X16: on a plant that configures no rotor diameter and no turbine name,
    whose configured hub height (if any) agrees with the engine's and whose
    engine hub height is the resource data's, the initialisation downloads
    nothing and touches no hub-height field.  Without the air-density
    adjustment, or without a site elevation, it returns with the plant
    exactly as it was; with both, the only change is the engine's
    turbine-specific loss, set to the loss computed from the elevation. *)
Theorem initialize_consistent_plant (w : WindPlant) (hub : Q) :
  WindConfig.rotor_diameter (config w) = None ->
  WindConfig.turbine_name (config w) = None ->
  _system_model w !! k_hub = Some (VNum hub) ->
  (forall h, WindConfig.hub_height (config w) = Some h -> (h == hub)%Q) ->
  (hub == WindResource.hub_height_meters (SiteInfo.wind_resource (site w)))%Q ->
  (WindConfig.adjust_air_density_for_elevation (config w) = false \/
   SiteInfo.elev (site w) = None ->
   initialize_pysam_wind_turbine w = (Returns tt, w)) /\
  (forall e,
     WindConfig.adjust_air_density_for_elevation (config w) = true ->
     SiteInfo.elev (site w) = Some e ->
     initialize_pysam_wind_turbine w
     = (Returns tt,
        with_system_model
          (<[k_loss := VNum (calculate_air_density_losses e)]> (_system_model w)) w)).
Proof.
  intros Hr Hn Hhub Hcfg Heq.
  rewrite (initialize_consistent_run w hub Hr Hn Hhub Hcfg Heq).
  unfold init_air_density, bind, get_state. split.
  - intros [Ha|He].
    + now rewrite Ha.
    + rewrite He. now destruct (WindConfig.adjust_air_density_for_elevation (config w)).
  - intros e Ha He. now rewrite Ha, He.
Qed.

End InitializeMore.

Lemma initialize_hub_height_mismatch_witness :
  @initialize_pysam_wind_turbine stub plant_hub_90
  = (Raises (Raise ValueError
       ("Input hub-height (" ++ "90" ++ ") does not match hub-height "
        ++ "for turbine (" ++ "80" ++ "). "
        ++ "Please correct the value for hub_height in the hopp config input "
        ++ "to " ++ "80" ++ ".")), plant_hub_90).
Proof.
  apply (@initialize_hub_height_mismatch stub plant_hub_90 90 80);
    try reflexivity. discriminate.
Defined.

Lemma initialize_consistent_plant_witness :
  @initialize_pysam_wind_turbine stub plant0 = (Returns tt, plant0) /\
  @initialize_pysam_wind_turbine stub plant_elevated
  = (Returns tt,
     with_system_model (<[k_loss := VNum 0]> (_system_model plant_elevated)) plant_elevated).
Proof.
  split.
  - apply (proj1 (@initialize_consistent_plant stub plant0 80 eq_refl eq_refl eq_refl
                    ltac:(discriminate) ltac:(reflexivity))).
    now left.
  - apply (proj2 (@initialize_consistent_plant stub plant_elevated 80 eq_refl eq_refl eq_refl
                    ltac:(intros h [= <-]; reflexivity) ltac:(reflexivity)) 1500);
      reflexivity.
Defined.

(** X17: initialisation is idempotent once it has reconciled a hub height
    inside the measured range.  With no rotor diameter and no turbine name
    configured and an engine hub height that differs from the resource
    data's but lies within its measured heights, the first run returns, and
    a second run on the plant it leaves returns with that plant unchanged. *)
Theorem initialize_in_range_idempotent `{Collaborators}
    (w : WindPlant) (hub lo hi : Q) :
  let resource := SiteInfo.wind_resource (site w) in
  WindConfig.rotor_diameter (config w) = None ->
  WindConfig.turbine_name (config w) = None ->
  _system_model w !! k_hub = Some (VNum hub) ->
  (forall h, WindConfig.hub_height (config w) = Some h -> (h == hub)%Q) ->
  ~ (hub == WindResource.hub_height_meters resource)%Q ->
  py_min (heights (WindResource.data resource)) = Returns lo ->
  py_max (heights (WindResource.data resource)) = Returns hi ->
  (lo <= hub /\ hub <= hi)%Q ->
  exists w',
    initialize_pysam_wind_turbine w = (Returns tt, w') /\
    initialize_pysam_wind_turbine w' = (Returns tt, w').
Proof.
  intros resource Hr Hn Hhub Hcfg Hne Hmin Hmax Hin.
  pose proof (init_resource_hub_height_inside w hub lo hi Hhub Hne Hmin Hmax Hin) as Hrun.
  set (w1 := with_site _ w) in Hrun.
  assert (Hfirst : initialize_pysam_wind_turbine w = init_air_density w1).
  { unfold initialize_pysam_wind_turbine.
    rewrite (bind_returns _ _ _ _ _ (init_turbine_parameters_nothing w hub Hr Hn Hhub Hcfg)).
    now rewrite (bind_returns _ _ _ _ _ Hrun). }
  assert (Hsecond : forall w2,
            config w2 = config w1 -> site w2 = site w1 ->
            _system_model w2 !! k_hub = Some (VNum hub) ->
            initialize_pysam_wind_turbine w2 = init_air_density w2).
  { intros w2 Hc2 Hs2 Hh2.
    apply initialize_consistent_run with (hub := hub);
      rewrite ?Hc2, ?Hs2; try assumption. reflexivity. }
  rewrite Hfirst. unfold init_air_density at 1. unfold bind, get_state.
  destruct (WindConfig.adjust_air_density_for_elevation (config w1)) eqn:Ha.
  - destruct (SiteInfo.elev (site w1)) as [e|] eqn:He.
    + simpl.
      set (w2 := with_system_model
                   (<[k_loss := VNum (calculate_air_density_losses e)]> (_system_model w1)) w1).
      exists w2. split; [reflexivity|].
      rewrite (Hsecond w2 eq_refl eq_refl);
        [|unfold w2; simpl; rewrite lookup_insert_ne by discriminate; exact Hhub].
      unfold init_air_density, bind, get_state.
      change (config w2) with (config w1). change (site w2) with (site w1).
      rewrite Ha, He. simpl. unfold w2, with_system_model. simpl.
      unfold bind, value_set, on_system_model, engine_value_set, ret. simpl.
      now rewrite insert_insert_eq.
    + exists w1. split; [reflexivity|].
      rewrite (Hsecond w1 eq_refl eq_refl Hhub).
      unfold init_air_density, bind, get_state. now rewrite Ha, He.
  - exists w1. split; [reflexivity|].
    rewrite (Hsecond w1 eq_refl eq_refl Hhub).
    unfold init_air_density, bind, get_state. now rewrite Ha.
Qed.

Lemma initialize_in_range_idempotent_witness :
  exists w',
    @initialize_pysam_wind_turbine stub plant_elevated_bracketed = (Returns tt, w') /\
    @initialize_pysam_wind_turbine stub w' = (Returns tt, w').
Proof.
  apply (@initialize_in_range_idempotent stub plant_elevated_bracketed 80 60 100);
    try reflexivity.
  - intros h [= <-]. reflexivity.
  - discriminate.
  - split; discriminate.
Defined.

(** ** Layout parameters given as a dictionary *)

(** X18: [modify_layout_params] looks into its [layout_params] argument only
    when it is a dictionary.  A dictionary given without a layout mode is
    refused with a [ValueError] before the layout is touched; a dictionary
    given with a mode other than the four it knows is handed to the layout's
    [set_layout_params] as it is, unconverted; an object of a parameter
    class is handed over as it is whatever the mode, and with none. *)
Theorem modify_layout_params_dispatch
    (new_custom new_grid new_basic new_boundary :
       list (string * value) -> outcome LayoutParameters)
    (set_layout_params : Q -> layout_params_arg -> Py (WindLayout.t * SystemModel) unit)
    (w : WindPlant) (wind_capacity_kW : Q) (d : list (string * value)) :
  modify_layout_params new_custom new_grid new_basic new_boundary set_layout_params
    wind_capacity_kW (ParamsDict d) None w
  = (Raises (Raise ValueError msg_layout_mode), w) /\
  (forall mode,
     mode <> "custom" -> mode <> "grid" -> mode <> "basicgrid" -> mode <> "boundarygrid" ->
     modify_layout_params new_custom new_grid new_basic new_boundary set_layout_params
       wind_capacity_kW (ParamsDict d) (Some mode) w
     = on_layout (set_layout_params wind_capacity_kW (ParamsDict d)) w) /\
  (forall p mode,
     modify_layout_params new_custom new_grid new_basic new_boundary set_layout_params
       wind_capacity_kW (ParamsObject p) mode w
     = on_layout (set_layout_params wind_capacity_kW (ParamsObject p)) w).
Proof.
  split; [reflexivity|split].
  - intros mode H1 H2 H3 H4. unfold modify_layout_params.
    rewrite (proj2 (String.eqb_neq _ _) H1), (proj2 (String.eqb_neq _ _) H2),
      (proj2 (String.eqb_neq _ _) H3), (proj2 (String.eqb_neq _ _) H4).
    reflexivity.
  - intros p mode. reflexivity.
Qed.

(** ** Sizing by turbine count outside a custom layout *)

Lemma num_turbines_set_other_mode `{Collaborators} (w : WindPlant) (n_turbines : Z) :
  WindLayout.layout_mode (_layout w) <> "custom" ->
  num_turbines_set n_turbines w = on_layout (set_num_turbines n_turbines) w.
Proof.
  intros Hmode. unfold num_turbines_set, bind, get_state. simpl.
  now rewrite (proj2 (String.eqb_neq _ _) Hmode).
Qed.

(** X19: on a power curve whose maximum is zero the [system_capacity_kw]
    setter cannot turn a capacity into a turbine count: it raises the
    [ZeroDivisionError] of the division and leaves the plant as it was. *)
Theorem system_capacity_kw_set_zero_rating `{Collaborators}
    (w : WindPlant) (size_kw r : Q) (curve : list Q) :
  _system_model w !! k_powerout = Some (VArr curve) ->
  py_max curve = Returns r ->
  (r == 0)%Q ->
  system_capacity_kw_set size_kw w
  = (Raises (Raise ZeroDivisionError "float division by zero"), w).
Proof.
  intros Hcurve Hmax Hz. unfold system_capacity_kw_set, system_capacity_by_num_turbines.
  rewrite (bind_returns _ _ _ _ _ (turb_rating_run w curve r Hcurve Hmax)).
  apply bind_raises. unfold lift, py_div.
  now rewrite (proj2 (Qeq_bool_iff _ _) Hz).
Qed.

Lemma system_capacity_kw_set_zero_rating_witness :
  @system_capacity_kw_set stub 3000 plant_zero_curve
  = (Raises (Raise ZeroDivisionError "float division by zero"), plant_zero_curve).
Proof.
  apply (@system_capacity_kw_set_zero_rating stub plant_zero_curve 3000 0 [0; 0; 0]);
    reflexivity.
Defined.

(** X20: outside a custom layout, assigning [system_capacity_kw] a capacity
    that rounds to another count than the current one hands exactly that
    count, the capacity over the turbine rating rounded to the nearest
    integer with ties to the even one, to the layout's [set_num_turbines],
    once and without any check of its own. *)
Theorem system_capacity_kw_set_new_count `{Collaborators}
    (w : WindPlant) (size_kw r : Q) (curve xs : list Q) :
  WindLayout.layout_mode (_layout w) <> "custom" ->
  _system_model w !! k_powerout = Some (VArr curve) ->
  _system_model w !! k_xcoords = Some (VArr xs) ->
  py_max curve = Returns r ->
  ~ (r == 0)%Q ->
  round_half_even (size_kw / r) <> Z.of_nat (length xs) ->
  system_capacity_kw_set size_kw w
  = on_layout (set_num_turbines (round_half_even (size_kw / r))) w.
Proof.
  intros Hmode Hcurve Hxs Hmax Hr Hn. unfold system_capacity_kw_set.
  rewrite (system_capacity_by_num_turbines_unfold w size_kw curve xs r Hcurve Hxs Hmax Hr).
  replace (Z.of_nat (length xs) =? round_half_even (size_kw / r))%Z with false
    by (symmetry; apply Z.eqb_neq; congruence).
  simpl. now apply num_turbines_set_other_mode.
Qed.

Lemma system_capacity_kw_set_new_count_witness :
  @system_capacity_kw_set stub 2500 plant0 = on_layout (@set_num_turbines stub 2) plant0.
Proof.
  apply (@system_capacity_kw_set_new_count stub plant0 2500 1000
           [0; 500; 1000; 1000; 0] [0; 400; 800]);
    try reflexivity; discriminate.
Defined.
